(** * Coffee-shop backend: the drinks API of [backend/src/api.py]

    A shallow embedding of the five route handlers, the error handlers
    and the dispatch that Flask performs around them, followed by the
    properties of the specification, each stated on that embedding.

    Handlers are written in a state-and-exception monad: the state is the
    drinks table, an exception is what Python raises ([abort], a failed
    subscript, a mapper error, [AuthError]).  What the repository keeps in
    [database/models.py] and [auth/auth.py] is modelled from the
    specification and marked as such; what belongs to libraries
    ([json.dumps], the token cryptography, the relational store deciding
    whether a commit goes through) is a section variable. *)

From Stdlib Require Import List String Ascii ZArith Bool Lia DecimalString.
Import ListNotations.
Open Scope string_scope.
Open Scope Z_scope.

Set Warnings "-register-all".

(* ===================================================================== *)
(** ** Python values exchanged as JSON *)
(* ===================================================================== *)

(** What [request.get_json()] hands to a handler and what [jsonify]
    receives.  A dict is an association list in key order, read at the
    first binding of a key.  Numbers are integers; floats are left out. *)
Inductive json : Type :=
| JNull
| JBool (b : bool)
| JNum (n : Z)
| JStr (s : string)
| JArr (items : list json)
| JObj (fields : list (string * json)).

Fixpoint assoc (k : string) (fs : list (string * json)) : option json :=
  match fs with
  | [] => None
  | (k', v) :: rest => if String.eqb k k' then Some v else assoc k rest
  end.

(** Reading a key of a response body; [None] on anything but a dict. *)
Definition obj_get (k : string) (j : json) : option json :=
  match j with
  | JObj fs => assoc k fs
  | _ => None
  end.

(** [x is None] *)
Definition is_None (j : json) : bool :=
  match j with
  | JNull => true
  | _ => false
  end.

(* ===================================================================== *)
(** ** Exceptions and the handler monad *)
(* ===================================================================== *)

Inductive exn : Type :=
| HTTPException (code : Z)                     (* abort(code) *)
| KeyError (key : string)                      (* d[k], k not in d *)
| TypeError                                    (* x[k], x not a dict *)
| MultipleResultsFound                         (* one_or_none() on several rows *)
| PersistenceError                             (* raised inside a commit *)
| AuthError (error : json) (status_code : Z)   (* auth.AuthError(error, status_code) *)
| StatementError.                              (* a query on an id the store cannot bind *)

Inductive result (A : Type) : Type :=
| Ok (a : A)
| Raise (e : exn).
Arguments Ok {A} a.
Arguments Raise {A} e.

(** [data[k]] *)
Definition getitem (data : json) (k : string) : result json :=
  match data with
  | JObj fs =>
      match assoc k fs with
      | Some v => Ok v
      | None => Raise (KeyError k)
      end
  | _ => Raise TypeError
  end.

(** The key at which [data['title']] followed by [data['recipe']] raises
    on a dict that lacks one of them: the first subscript comes first. *)
Definition missing_key (fields : list (string * json)) : string :=
  match assoc "title" fields with
  | None => "title"
  | Some _ => "recipe"
  end.

(** One row of the drinks table.  [title] holds the value the handler
    assigned; [recipe] is the column of serialized text. *)
Record Drink : Type := mkDrink {
  id : Z;
  title : json;
  recipe : string
}.

(** The table, in the order [Drink.query.all()] yields its rows. *)
Definition Table : Type := list Drink.

(** A computation that reads and writes the table and may raise.  The
    table that comes back with [Raise] is the table at the raise. *)
Definition M (A : Type) : Type := Table -> result A * Table.

Definition ret {A} (a : A) : M A := fun t => (Ok a, t).

Definition bind {A B} (m : M A) (k : A -> M B) : M B :=
  fun t =>
    match m t with
    | (Ok a, t') => k a t'
    | (Raise e, t') => (Raise e, t')
    end.

Definition raise {A} (e : exn) : M A := fun t => (Raise e, t).

(** A raising or returning step that leaves the table alone. *)
Definition lift {A} (r : result A) : M A := fun t => (r, t).

(** [try: body / except: handler], with a bare [except]. *)
Definition try_except {A} (body handler : M A) : M A :=
  fun t =>
    match body t with
    | (Ok a, t') => (Ok a, t')
    | (Raise _, t') => handler t'
    end.

Notation "x <- m ;; k" := (bind m (fun x => k))
  (at level 61, m at next level, right associativity).
Notation "m ;;; k" := (bind m (fun _ => k))
  (at level 61, right associativity).

(** [flask.abort(code)], for a code werkzeug has an exception for;
    [api.py] aborts with 404 only. *)
Definition abort {A} (code : Z) : M A := raise (HTTPException code).

(** [flask.jsonify(body)] as the value a view returns. *)
Definition jsonify (fields : list (string * json)) : M json :=
  ret (JObj fields).

(* ===================================================================== *)
(** ** Requests and responses *)
(* ===================================================================== *)

(** The body as [request.get_json()] finds it: a parsed value, or text
    that is not JSON, on which Flask raises [BadRequest]. *)
Inductive body_state : Type :=
| Parsed (data : json)
| Unparsable.

Record Request : Type := mkRequest {
  authorization : option string;   (* the Authorization header *)
  payload : body_state
}.

Definition get_json (request : Request) : M json :=
  match payload request with
  | Parsed data => ret data
  | Unparsable => abort 400
  end.

(** A response body: a JSON document, or the HTML page werkzeug renders
    for an error nobody registered a handler for. *)
Inductive Body : Type :=
| JsonBody (j : json)
| DefaultPage.

Record Response : Type := mkResponse {
  status : Z;
  body : Body
}.

(** *** The registered error handlers *)

Definition not_found : Response :=
  mkResponse 404
    (JsonBody (JObj [("success", JBool false); ("error", JNum 404);
                     ("message", JStr "resource not found")])).

Definition unprocessable : Response :=
  mkResponse 422
    (JsonBody (JObj [("success", JBool false); ("error", JNum 422);
                     ("message", JStr "unprocessable")])).

Definition bad_request : Response :=
  mkResponse 400
    (JsonBody (JObj [("success", JBool false); ("error", JNum 400);
                     ("message", JStr "bad request")])).

(** [response = jsonify(e.error); response.status_code = e.status_code] *)
Definition handle_auth_error (error : json) (status_code : Z) : Response :=
  mkResponse status_code (JsonBody error).

(** What Flask does with the outcome of a view: a returned [jsonify]
    value is a 200; an [HTTPException] goes to the handler registered for
    its code, or to werkzeug's page; [AuthError] goes to its handler; any
    other exception is a 500. *)
Definition dispatch (r : result json) : Response :=
  match r with
  | Ok j => mkResponse 200 (JsonBody j)
  | Raise (HTTPException code) =>
      if code =? 404 then not_found
      else if code =? 422 then unprocessable
      else if code =? 400 then bad_request
      else mkResponse code DefaultPage
  | Raise (AuthError error status_code) => handle_auth_error error status_code
  | Raise _ => mkResponse 500 DefaultPage
  end.

(** The uniform failure body [{success: false, error: <status>, message: <text>}]. *)
Definition is_error_envelope (r : Response) : Prop :=
  exists j text,
    body r = JsonBody j /\
    obj_get "success" j = Some (JBool false) /\
    obj_get "error" j = Some (JNum (status r)) /\
    obj_get "message" j = Some (JStr text).

Definition envelope_status (code : Z) : Prop :=
  code = 400 \/ code = 401 \/ code = 403 \/ code = 404 \/ code = 422.

(* ===================================================================== *)
(** ** The authorization checker *)
(* ===================================================================== *)

(** Modelled from the spec: [auth/auth.py] ([AuthError], [requires_auth]
    and what it calls) is not among the sources.  Section 4.1 of the
    specification gives the contract followed here: the seven failures,
    401 for every one but insufficient-permission, which is 403, and an
    error value made of a machine-readable code and a description. *)
Inductive auth_failure : Type :=
| missing_header
| malformed_header
| malformed_token
| invalid_signature
| expired_token
| missing_permission_claim
| insufficient_permission.

(** Modelled from the spec: the HTTP status a failure of the absent
    [auth/auth.py] carries, 401 for authentication failures and 403 for
    insufficient-permission. *)
Definition failure_status (f : auth_failure) : Z :=
  match f with
  | insufficient_permission => 403
  | _ => 401
  end.

(** Modelled from the spec: the machine-readable code of a failure of the
    absent [auth/auth.py], under the names section 4.1 gives them. *)
Definition failure_code (f : auth_failure) : string :=
  match f with
  | missing_header => "missing-header"
  | malformed_header => "malformed-header"
  | malformed_token => "malformed-token"
  | invalid_signature => "invalid-signature"
  | expired_token => "expired-token"
  | missing_permission_claim => "missing-permission-claim"
  | insufficient_permission => "insufficient-permission"
  end.

(** Modelled from the spec: the claim set of a verified token, decoded in
    the absent [auth/auth.py]: an expiry and, when the claim is there, the
    array of permission strings. *)
Record Claims : Type := mkClaims {
  exp : Z;
  permissions : option (list string)
}.

(** Modelled from the spec: what the verification step of the absent
    [auth/auth.py] finds in a token: the header names no usable key, the
    signature (or audience, or issuer) does not verify, the token is past
    its expiry, or the claims are good. *)
Inductive verdict : Type :=
| Undecodable
| SignatureMismatch
| Expired
| Verified (claims : Claims).

Definition is_space (c : ascii) : bool :=
  let n := nat_of_ascii c in
  (Nat.eqb n 32 || (Nat.leb 9 n && Nat.leb n 13))%bool.

(** [str.split()]: the maximal runs of characters that are not
    whitespace, as the header check of section 4.1 splits the header. *)
Fixpoint split_ws (cur : option string) (s : string) : list string :=
  match s with
  | EmptyString =>
      match cur with
      | Some w => [w]
      | None => []
      end
  | String c rest =>
      if is_space c then
        match cur with
        | Some w => w :: split_ws None rest
        | None => split_ws None rest
        end
      else
        split_ws (Some (match cur with
                        | Some w => w ++ String c EmptyString
                        | None => String c EmptyString
                        end)) rest
  end.

Section Auth.

(** The provider's verification of a raw token (key lookup, signature,
    audience, issuer, expiry): cryptography outside the repository. *)
Variable jwt_decode : string -> verdict.

(** The human description attached to each failure. *)
Variable description : auth_failure -> string.

(** Modelled from the spec: the [AuthError] that the absent
    [auth/auth.py] raises for a failure: an error value of code and
    description, and the status. *)
Definition auth_error (f : auth_failure) : exn :=
  AuthError (JObj [("code", JStr (failure_code f));
                   ("description", JStr (description f))])
            (failure_status f).

(** Modelled from the spec: the header step of the absent
    [auth/auth.py]: header present, exactly two whitespace-separated
    parts, the first of them [Bearer]. *)
Definition get_token_auth_header (request : Request) : result string :=
  match authorization request with
  | None => Raise (auth_error missing_header)
  | Some h =>
      match split_ws None h with
      | [scheme; token] =>
          if String.eqb scheme "Bearer" then Ok token
          else Raise (auth_error malformed_header)
      | _ => Raise (auth_error malformed_header)
      end
  end.

(** Modelled from the spec: the verification step of the absent
    [auth/auth.py], each finding of the provider mapped to its failure. *)
Definition verify_decode_jwt (token : string) : result Claims :=
  match jwt_decode token with
  | Undecodable => Raise (auth_error malformed_token)
  | SignatureMismatch => Raise (auth_error invalid_signature)
  | Expired => Raise (auth_error expired_token)
  | Verified claims => Ok claims
  end.

(** Modelled from the spec: the permission step of the absent
    [auth/auth.py]: the claim must be there and must list the required
    permission. *)
Definition check_permissions (permission : string) (claims : Claims) : result unit :=
  match permissions claims with
  | None => Raise (auth_error missing_permission_claim)
  | Some granted =>
      if existsb (String.eqb permission) granted then Ok tt
      else Raise (auth_error insufficient_permission)
  end.

(** Modelled from the spec: the checker of the absent [auth/auth.py],
    header, then token, then permission: the claim set, or the first
    failure. *)
Definition check_auth (permission : string) (request : Request) : result Claims :=
  match get_token_auth_header request with
  | Raise e => Raise e
  | Ok token =>
      match verify_decode_jwt token with
      | Raise e => Raise e
      | Ok claims =>
          match check_permissions permission claims with
          | Raise e => Raise e
          | Ok _ => Ok claims
          end
      end
  end.

(** Modelled from the spec: [@requires_auth(permission)] of the absent
    [auth/auth.py]: the view runs on the claim set once the checker has
    let the request through. *)
Definition requires_auth (permission : string) (f : Claims -> M json)
    (request : Request) : M json :=
  jwt <- lift (check_auth permission request) ;;
  f jwt.

End Auth.

(* ===================================================================== *)
(** ** The Drink model *)
(* ===================================================================== *)

(** What the store is asked to do: one of the three commits, or the
    lookup of a row by its identifier. *)
Inductive db_op : Type :=
| OpInsert (new_title : json) (new_recipe : string)
| OpUpdate (drink : Drink)
| OpDelete (drink : Drink)
| OpSelect (i : Z).

(** [Drink.query.all()] *)
Definition query_all : M (list Drink) := fun t => (Ok t, t).

(** [Drink.query.filter_by(id=id)] *)
Definition filter_by_id (i : Z) (t : Table) : list Drink :=
  filter (fun d => id d =? i) t.

(** [.one_or_none()] *)
Definition one_or_none (rows : list Drink) : result (option Drink) :=
  match rows with
  | [] => Ok None
  | [d] => Ok (Some d)
  | _ => Raise MultipleResultsFound
  end.

(** Modelled from the spec: the recipe detail that the short form of the
    absent [Drink.short] leaves out of an ingredient, its color and its
    parts (section 4.2). *)
Definition is_detail (k : string) : bool :=
  (String.eqb k "color" || String.eqb k "parts")%bool.

(** Modelled from the spec: an ingredient as the short form of the absent
    [Drink.short] shows it, without its detail. *)
Definition omit_detail (ingredient : json) : json :=
  match ingredient with
  | JObj fs => JObj (filter (fun kv => negb (is_detail (fst kv))) fs)
  | other => other
  end.

(** Modelled from the spec: the recipe of the short form of the absent
    [Drink.short], every ingredient without its detail. *)
Definition short_recipe (r : json) : json :=
  match r with
  | JArr ingredients => JArr (map omit_detail ingredients)
  | other => omit_detail other
  end.

(** The ingredient entries of a recipe value. *)
Definition ingredients_of (r : json) : list json :=
  match r with
  | JArr ingredients => ingredients
  | other => [other]
  end.

(** The five operations of the interface. *)
Inductive Operation : Type :=
| GET_drinks
| GET_drinks_detail
| POST_drinks
| PATCH_drinks (i : Z)
| DELETE_drinks (i : Z).

Section Model.

(** [json.dumps] and [json.loads], the latter on the texts a recipe
    column holds. *)
Variable json_dumps : json -> string.
Variable json_loads : string -> json.

(** Whether the store makes a commit raise (a violated constraint, a
    lost connection) or a lookup raise (an identifier it cannot bind),
    and the identifier it generates for a new row. *)
Variable commit_raises : Table -> db_op -> bool.
Variable next_id : Table -> Z.

(** [Drink.query.filter_by(id=id).one_or_none()].  The statement binds the
    identifier before it runs, and the store may refuse one it cannot
    hold (an integer beyond its range): the query then raises.  An
    identifier that a row has is one the store holds, so the raise
    concerns identifiers no row has; the store is asked through
    [OpSelect]. *)
Definition query_one_or_none (i : Z) : M (option Drink) :=
  fun t =>
    match filter_by_id i t with
    | [] =>
        if commit_raises t (OpSelect i) then (Raise StatementError, t)
        else (Ok None, t)
    | rows => (one_or_none rows, t)
    end.

(** Modelled from the spec: [Drink.long] of [database/models.py], absent
    from the sources.  The long form is the full drink: identifier,
    title and the whole recipe. *)
Definition long (d : Drink) : json :=
  JObj [("id", JNum (id d)); ("title", title d);
        ("recipe", json_loads (recipe d))].

(** Modelled from the spec: [Drink.short] of [database/models.py], absent
    from the sources.  The short form is the drink with the recipe
    detail left out of every ingredient. *)
Definition short (d : Drink) : json :=
  JObj [("id", JNum (id d)); ("title", title d);
        ("recipe", short_recipe (json_loads (recipe d)))].

(** Modelled from the spec: [Drink.insert] of [database/models.py],
    absent from the sources.  A commit that goes through appends one row
    carrying the generated identifier; one that raises changes nothing. *)
Definition insert (new_title : json) (new_recipe : string) : M Drink :=
  fun t =>
    if commit_raises t (OpInsert new_title new_recipe) then
      (Raise PersistenceError, t)
    else
      let d := mkDrink (next_id t) new_title new_recipe in
      (Ok d, (t ++ [d])%list).

(** Modelled from the spec: [Drink.update] of [database/models.py],
    absent from the sources.  The row of the drink's identifier takes the
    drink's fields. *)
Definition update (d : Drink) : M unit :=
  fun t =>
    if commit_raises t (OpUpdate d) then (Raise PersistenceError, t)
    else (Ok tt, map (fun r => if id r =? id d then d else r) t).

(** Modelled from the spec: [Drink.delete] of [database/models.py],
    absent from the sources.  The row of the drink's identifier goes. *)
Definition delete (d : Drink) : M unit :=
  fun t =>
    if commit_raises t (OpDelete d) then (Raise PersistenceError, t)
    else (Ok tt, filter (fun r => negb (id r =? id d)) t).

(* =================================================================== *)
(** ** Routes *)
(* =================================================================== *)

(** [GET /drinks] *)
Definition get_drinks : M json :=
  all_drinks <- query_all ;;
  if Nat.eqb (List.length all_drinks) 0 then abort 404
  else
    let drinks := map short all_drinks in
    jsonify [("success", JBool true); ("drinks", JArr drinks)].

(** [GET /drinks-detail] *)
Definition get_drinks_detail (jwt : Claims) : M json :=
  all_drinks <- query_all ;;
  if Nat.eqb (List.length all_drinks) 0 then abort 404
  else
    let drinks := map long all_drinks in
    jsonify [("success", JBool true); ("drinks", JArr drinks)].

(** [POST /drinks] *)
Definition create_drink (request : Request) (jwt : Claims) : M json :=
  data <- get_json request ;;
  new_title <- lift (getitem data "title") ;;
  new_recipe <- lift (getitem data "recipe") ;;
  try_except
    (drink <- insert new_title (json_dumps new_recipe) ;;
     jsonify [("success", JBool true); ("drinks", long drink)])
    (abort 404).

(** [PATCH /drinks/<int:id>] *)
Definition edit_drink (request : Request) (i : Z) (jwt : Claims) : M json :=
  found <- query_one_or_none i ;;
  match found with
  | None => abort 404
  | Some drink =>
      data <- get_json request ;;
      new_title <- lift (getitem data "title") ;;
      new_recipe <- lift (getitem data "recipe") ;;
      let drink :=
        if is_None new_title then drink
        else mkDrink (id drink) new_title (recipe drink) in
      let drink :=
        if is_None new_recipe then drink
        else mkDrink (id drink) (title drink) (json_dumps new_recipe) in
      try_except
        (update drink ;;;
         jsonify [("success", JBool true); ("drinks", long drink)])
        (abort 404)
  end.

(** [DELETE /drinks/<int:id>] *)
Definition delete_drink (i : Z) (jwt : Claims) : M json :=
  found <- query_one_or_none i ;;
  match found with
  | None => abort 404
  | Some drink =>
      try_except
        (delete drink ;;;
         jsonify [("success", JBool true); ("id", JNum i)])
        (abort 404)
  end.

(** *** The application *)

Variable jwt_decode : string -> verdict.
Variable description : auth_failure -> string.

(** The view function of each route, behind its decorators. *)
Definition view (op : Operation) (request : Request) : M json :=
  let guarded := requires_auth jwt_decode description in
  match op with
  | GET_drinks => get_drinks
  | GET_drinks_detail => guarded "get:drinks-detail" get_drinks_detail request
  | POST_drinks => guarded "post:drinks" (create_drink request) request
  | PATCH_drinks i => guarded "patch:drinks" (edit_drink request i) request
  | DELETE_drinks i => guarded "delete:drinks" (delete_drink i) request
  end.

(** One request served: the response, and the table afterwards. *)
Definition serve (op : Operation) (request : Request) (t : Table)
    : Response * Table :=
  let (r, t') := view op request t in (dispatch r, t').

End Model.

(* ===================================================================== *)
(** ** A serializer to run the model on *)
(* ===================================================================== *)

(** The text form of [json] values in the layout of Python's [json]
    module (items separated by a comma and a space, keys by a colon and a
    space), for ASCII strings and integers, with a reader for it.  The
    model above is stated for any serializer; this one instantiates it on
    concrete requests. *)
Module PyJson.

Definition hex_digit (n : nat) : ascii :=
  ascii_of_nat (if Nat.ltb n 10 then 48 + n else 87 + n).

Definition escape_char (c : ascii) : string :=
  let n := nat_of_ascii c in
  if Nat.eqb n 34 then String (ascii_of_nat 92) (String (ascii_of_nat 34) EmptyString)
  else if Nat.eqb n 92 then "\\"
  else if Nat.eqb n 10 then "\n"
  else if Nat.eqb n 13 then "\r"
  else if Nat.eqb n 9 then "\t"
  else if Nat.eqb n 8 then "\b"
  else if Nat.eqb n 12 then "\f"
  else if Nat.ltb n 32 then
    "\u00" ++ String (hex_digit (Nat.div n 16)) (String (hex_digit (Nat.modulo n 16)) EmptyString)
  else String c EmptyString.

Fixpoint escape (s : string) : string :=
  match s with
  | EmptyString => EmptyString
  | String c rest => escape_char c ++ escape rest
  end.

Definition quote (s : string) : string :=
  String (ascii_of_nat 34) (escape s ++ String (ascii_of_nat 34) EmptyString).

Fixpoint dumps (j : json) : string :=
  match j with
  | JNull => "null"
  | JBool true => "true"
  | JBool false => "false"
  | JNum n => NilZero.string_of_int (Z.to_int n)
  | JStr s => quote s
  | JArr items =>
      "[" ++ (fix go (l : list json) : string :=
                match l with
                | [] => EmptyString
                | x :: rest =>
                    dumps x ++ match rest with
                               | [] => EmptyString
                               | _ => ", " ++ go rest
                               end
                end) items ++ "]"
  | JObj fields =>
      "{" ++ (fix go (l : list (string * json)) : string :=
                match l with
                | [] => EmptyString
                | (k, v) :: rest =>
                    quote k ++ ": " ++ dumps v ++ match rest with
                                                  | [] => EmptyString
                                                  | _ => ", " ++ go rest
                                                  end
                end) fields ++ "}"
  end.

Fixpoint skip_ws (s : string) : string :=
  match s with
  | String c rest => if is_space c then skip_ws rest else s
  | EmptyString => s
  end.

(** [s] less the prefix [p], when it starts with it. *)
Fixpoint strip_prefix (p s : string) : option string :=
  match p, s with
  | EmptyString, _ => Some s
  | String a p', String b s' => if Ascii.eqb a b then strip_prefix p' s' else None
  | String _ _, EmptyString => None
  end.

Definition is_digit (c : ascii) : bool :=
  let n := nat_of_ascii c in (Nat.leb 48 n && Nat.leb n 57)%bool.

Definition hex_value (c : ascii) : option nat :=
  let n := nat_of_ascii c in
  if (Nat.leb 48 n && Nat.leb n 57)%bool then Some (n - 48)%nat
  else if (Nat.leb 97 n && Nat.leb n 102)%bool then Some (n - 87)%nat
  else if (Nat.leb 65 n && Nat.leb n 70)%bool then Some (n - 55)%nat
  else None.

(** The longest prefix of sign and digits, and what follows it. *)
Fixpoint span_number (s : string) : string * string :=
  match s with
  | String c rest =>
      if (is_digit c || Ascii.eqb c "-")%bool then
        let (num, tail) := span_number rest in (String c num, tail)
      else (EmptyString, s)
  | EmptyString => (EmptyString, s)
  end.

(** The characters of a string literal after its opening quote, up to
    the closing one. *)
Fixpoint read_string (s : string) : option (string * string) :=
  match s with
  | EmptyString => None
  | String c rest =>
      let n := nat_of_ascii c in
      if Nat.eqb n 34 then Some (EmptyString, rest)
      else if Nat.eqb n 92 then
        match rest with
        | String e rest' =>
            let plain (ch : nat) :=
              match read_string rest' with
              | Some (w, tail) => Some (String (ascii_of_nat ch) w, tail)
              | None => None
              end in
            let m := nat_of_ascii e in
            if Nat.eqb m 34 then plain 34%nat
            else if Nat.eqb m 92 then plain 92%nat
            else if Nat.eqb m 47 then plain 47%nat
            else if Nat.eqb m 110 then plain 10%nat
            else if Nat.eqb m 114 then plain 13%nat
            else if Nat.eqb m 116 then plain 9%nat
            else if Nat.eqb m 98 then plain 8%nat
            else if Nat.eqb m 102 then plain 12%nat
            else if Nat.eqb m 117 then
              match rest' with
              | String "0" (String "0" (String h (String l rest''))) =>
                  match hex_value h, hex_value l, read_string rest'' with
                  | Some a, Some b, Some (w, tail) =>
                      Some (String (ascii_of_nat (16 * a + b)) w, tail)
                  | _, _, _ => None
                  end
              | _ => None
              end
            else None
        | EmptyString => None
        end
      else
        match read_string rest with
        | Some (w, tail) => Some (String c w, tail)
        | None => None
        end
  end.

Fixpoint parse_value (fuel : nat) (s : string) : option (json * string) :=
  match fuel with
  | O => None
  | S fuel' =>
      match skip_ws s with
      | EmptyString => None
      | String c rest as s' =>
          let n := nat_of_ascii c in
          if Nat.eqb n 110 then option_map (pair JNull) (strip_prefix "null" s')
          else if Nat.eqb n 116 then option_map (pair (JBool true)) (strip_prefix "true" s')
          else if Nat.eqb n 102 then option_map (pair (JBool false)) (strip_prefix "false" s')
          else if Nat.eqb n 34 then
            match read_string rest with
            | Some (w, tail) => Some (JStr w, tail)
            | None => None
            end
          else if Nat.eqb n 91 then
            match skip_ws rest with
            | String "]" tail => Some (JArr [], tail)
            | _ => parse_items fuel' rest []
            end
          else if Nat.eqb n 123 then
            match skip_ws rest with
            | String "}" tail => Some (JObj [], tail)
            | _ => parse_members fuel' rest []
            end
          else
            let (num, tail) := span_number s' in
            match NilZero.int_of_string num with
            | Some d => Some (JNum (Z.of_int d), tail)
            | None => None
            end
      end
  end

with parse_items (fuel : nat) (s : string) (acc : list json)
    : option (json * string) :=
  match fuel with
  | O => None
  | S fuel' =>
      match parse_value fuel' s with
      | Some (v, rest) =>
          match skip_ws rest with
          | String "," tail => parse_items fuel' tail (v :: acc)
          | String "]" tail => Some (JArr (rev (v :: acc)), tail)
          | _ => None
          end
      | None => None
      end
  end

with parse_members (fuel : nat) (s : string) (acc : list (string * json))
    : option (json * string) :=
  match fuel with
  | O => None
  | S fuel' =>
      match skip_ws s with
      | String q rest =>
          if Nat.eqb (nat_of_ascii q) 34 then
            match read_string rest with
            | Some (k, rest1) =>
                match skip_ws rest1 with
                | String ":" rest2 =>
                    match parse_value fuel' rest2 with
                    | Some (v, rest3) =>
                        match skip_ws rest3 with
                        | String "," tail => parse_members fuel' tail ((k, v) :: acc)
                        | String "}" tail => Some (JObj (rev ((k, v) :: acc)), tail)
                        | _ => None
                        end
                    | None => None
                    end
                | _ => None
                end
            | None => None
            end
          else None
      | EmptyString => None
      end
  end.

(** The value a text denotes; a text that denotes none reads as
    [JNull], there being no raise on this path of the model. *)
Definition loads (s : string) : json :=
  match parse_value (S (String.length s)) s with
  | Some (v, rest) =>
      match skip_ws rest with
      | EmptyString => v
      | _ => JNull
      end
  | None => JNull
  end.

End PyJson.

(** Stores, tokens and requests to run the model on. *)
Module Demo.

(** A store on which every commit goes through. *)
Definition store_up : Table -> db_op -> bool := fun _ _ => false.

(** A store that has lost its connection: whatever it is asked raises. *)
Definition store_down : Table -> db_op -> bool := fun _ _ => true.

(** A store whose identifiers are 64-bit integers: a lookup raises on an
    identifier outside that range, and every commit goes through. *)
Definition int64_store : Table -> db_op -> bool :=
  fun _ op =>
    match op with
    | OpSelect i =>
        negb ((-9223372036854775808 <=? i) && (i <=? 9223372036854775807))
    | _ => false
    end.

(** The first identifier past that range. *)
Definition beyond : Z := 9223372036854775808.

(** Identifiers in sequence: one more than the largest in the table. *)
Definition serial_id (t : Table) : Z :=
  1 + fold_right (fun d m => Z.max (id d) m) 0 t.

Definition manager_claims : Claims :=
  mkClaims 1800000000
    (Some ["get:drinks-detail"; "post:drinks"; "patch:drinks"; "delete:drinks"]).

Definition barista_claims : Claims :=
  mkClaims 1800000000 (Some ["get:drinks-detail"]).

(** An identity provider that knows three tokens. *)
Definition decode (token : string) : verdict :=
  if String.eqb token "manager.jwt" then Verified manager_claims
  else if String.eqb token "barista.jwt" then Verified barista_claims
  else if String.eqb token "stale.jwt" then Expired
  else Undecodable.

Definition describe (f : auth_failure) : string :=
  match f with
  | missing_header => "Authorization header is expected."
  | malformed_header => "Authorization header must be a bearer token."
  | malformed_token => "The token cannot be decoded."
  | invalid_signature => "The token does not verify."
  | expired_token => "The token is expired."
  | missing_permission_claim => "The token carries no permissions."
  | insufficient_permission => "The permission is not granted."
  end.

Definition shop (store : Table -> db_op -> bool) :=
  serve PyJson.dumps PyJson.loads store serial_id decode describe.

Definition manager (data : json) : Request :=
  mkRequest (Some "Bearer manager.jwt") (Parsed data).

Definition barista (data : json) : Request :=
  mkRequest (Some "Bearer barista.jwt") (Parsed data).

Definition anonymous : Request := mkRequest None (Parsed JNull).

Definition water_recipe : json :=
  JArr [JObj [("name", JStr "water"); ("color", JStr "blue"); ("parts", JNum 1)]].

Definition water : Drink :=
  mkDrink 1 (JStr "Water") (PyJson.dumps water_recipe).

Definition tea_body : json :=
  JObj [("title", JStr "Tea"); ("recipe", water_recipe)].

Definition rename_body : json := JObj [("title", JStr "NewName")].

Definition latte : Drink :=
  mkDrink 2 (JStr "Latte")
    (PyJson.dumps
       (JArr [JObj [("name", JStr "milk"); ("color", JStr "white"); ("parts", JNum 3)];
              JObj [("name", JStr "coffee"); ("color", JStr "brown"); ("parts", JNum 1)]])).

(** A request whose body is not JSON. *)
Definition unreadable : Request :=
  mkRequest (Some "Bearer manager.jwt") Unparsable.

Definition long_black : json :=
  JObj [("title", JStr "Long black"); ("recipe", water_recipe)].

Definition nulls : json := JObj [("title", JNull); ("recipe", JNull)].

(** A morning at the counter. *)
Definition morning : list (Operation * Request) :=
  [(GET_drinks, anonymous);
   (POST_drinks, manager tea_body);
   (POST_drinks, barista tea_body);
   (POST_drinks, manager long_black);
   (PATCH_drinks 1, manager nulls);
   (DELETE_drinks 1, manager JNull);
   (DELETE_drinks 1, manager JNull);
   (GET_drinks_detail, barista JNull)].

End Demo.

(* ===================================================================== *)
(** ** Outcomes and sessions *)
(* ===================================================================== *)

(** What a view function of [api.py] lets escape once the decorator has
    let the request in: [abort(404)], the [BadRequest] of
    [request.get_json()], a failed subscript, a query on several rows or
    on an identifier the store cannot bind.
    A raise inside a commit is not among them: the bare [except] of the
    three writing views turns it into [abort(404)]. *)
Definition raised_by_view (e : exn) : Prop :=
  match e with
  | HTTPException code => code = 404 \/ code = 400
  | KeyError _ => True
  | TypeError => True
  | MultipleResultsFound => True
  | PersistenceError => False
  | AuthError _ _ => False
  | StatementError => True
  end.

(** Modelled from the spec: [db_drop_and_create_all] of
    [database/models.py], absent from the sources; [api.py] calls it when
    the module loads, with the note that it drops all records. *)
Definition db_drop_and_create_all : Table := [].

(** Requests served one after the other, each on the table the one before
    left: the answers in order, and the table at the end. *)
Fixpoint serve_all (step : Operation -> Request -> Table -> Response * Table)
    (requests : list (Operation * Request)) (t : Table)
    : list Response * Table :=
  match requests with
  | [] => ([], t)
  | (op, request) :: rest =>
      let (r, t') := step op request t in
      let (answers, t'') := serve_all step rest t' in
      (r :: answers, t'')
  end.

(** What a request answered 200 has done to the table, route by route:
    nothing for the listings, one row appended for a create, the row of
    the id replaced for an edit, the rows of the id removed for a
    delete. *)
Definition table_after (json_dumps : json -> string) (next_id : Table -> Z)
    (op : Operation) (t t' : Table) : Prop :=
  match op with
  | GET_drinks => t' = t
  | GET_drinks_detail => t' = t
  | POST_drinks =>
      exists new_title new_recipe,
        t' = (t ++ [mkDrink (next_id t) new_title (json_dumps new_recipe)])%list
  | PATCH_drinks i =>
      exists drink edited,
        filter_by_id i t = [drink] /\
        id edited = i /\
        (recipe edited = recipe drink \/ exists j, recipe edited = json_dumps j) /\
        t' = map (fun r => if id r =? i then edited else r) t
  | DELETE_drinks i =>
      (exists drink, filter_by_id i t = [drink]) /\
      t' = filter (fun r => negb (id r =? i)) t
  end.

(* ===================================================================== *)
(** ** Properties *)
(* ===================================================================== *)

Section Properties.

Variable json_dumps : json -> string.
Variable json_loads : string -> json.
Variable commit_raises : Table -> db_op -> bool.
Variable next_id : Table -> Z.
Variable jwt_decode : string -> verdict.
Variable description : auth_failure -> string.

Local Abbreviation run :=
  (serve json_dumps json_loads commit_raises next_id jwt_decode description).
Local Abbreviation checker := (check_auth jwt_decode description).
Local Abbreviation guarded := (requires_auth jwt_decode description).

(** *** The decorator *)

Lemma guarded_pass (permission : string) (f : Claims -> M json)
    (request : Request) (jwt : Claims) (t : Table) :
  checker permission request = Ok jwt ->
  guarded permission f request t = f jwt t.
Proof.
  intros H. unfold requires_auth, bind, lift. now rewrite H.
Qed.

Lemma guarded_stop (permission : string) (f : Claims -> M json)
    (request : Request) (e : exn) (t : Table) :
  checker permission request = Raise e ->
  guarded permission f request t = (Raise e, t).
Proof.
  intros H. unfold requires_auth, bind, lift. now rewrite H.
Qed.

(** The checker raises nothing but its own seven failures. *)
Lemma checker_raises_auth_error (permission : string) (request : Request) (e : exn) :
  checker permission request = Raise e ->
  exists f, e = auth_error description f.
Proof.
  unfold check_auth. intros H.
  destruct (get_token_auth_header description request) as [token | e1] eqn:Hh.
  - destruct (verify_decode_jwt jwt_decode description token) as [claims | e2] eqn:Hv.
    + destruct (check_permissions description permission claims) as [u | e3] eqn:Hp;
        [discriminate |].
      inversion H; subst e3. clear H.
      unfold check_permissions in Hp.
      destruct (permissions claims) as [granted |];
        [destruct (existsb (String.eqb permission) granted); [discriminate |] |];
        inversion Hp; eauto.
    + inversion H; subst e2. clear H.
      unfold verify_decode_jwt in Hv.
      destruct (jwt_decode token); inversion Hv; eauto.
  - inversion H; subst e1. clear H.
    unfold get_token_auth_header in Hh.
    destruct (authorization request) as [h |]; [| inversion Hh; eauto].
    destruct (split_ws None h) as [| scheme [| token [| x rest]]];
      try (inversion Hh; eauto; fail).
    destruct (String.eqb scheme "Bearer"); inversion Hh; eauto.
Qed.

Lemma auth_error_status (f : auth_failure) :
  status (dispatch (Raise (auth_error description f))) = failure_status f.
Proof. reflexivity. Qed.

Lemma failure_status_401_403 (f : auth_failure) :
  failure_status f = 401 \/ failure_status f = 403.
Proof. destruct f; simpl; auto. Qed.

(** A request the checker stops is answered without touching the table,
    and never with a 200. *)
Lemma guarded_stop_response (permission : string) (f : Claims -> M json)
    (request : Request) (e : exn) (t : Table) :
  checker permission request = Raise e ->
  let out := guarded permission f request t in
  status (dispatch (fst out)) <> 200 /\ snd out = t.
Proof.
  intros H. cbv zeta. rewrite (guarded_stop _ _ _ _ _ H). simpl.
  destruct (checker_raises_auth_error _ _ _ H) as [k ->].
  split; [| reflexivity].
  change (status (dispatch (Raise (auth_error description k))) <> 200).
  rewrite auth_error_status.
  destruct (failure_status_401_403 k) as [-> | ->]; lia.
Qed.

(** *** Queries *)

Lemma filter_by_id_absent (i : Z) (t : Table) :
  (forall d, In d t -> id d <> i) -> filter_by_id i t = [].
Proof.
  unfold filter_by_id.
  induction t as [| d t IH]; intros H; simpl; [reflexivity |].
  destruct (Z.eqb_spec (id d) i) as [E | _].
  - exfalso. apply (H d); [now left | exact E].
  - apply IH. intros d' Hd'. apply H. now right.
Qed.

Lemma query_absent (i : Z) (t : Table) :
  (forall d, In d t -> id d <> i) ->
  query_one_or_none commit_raises i t =
  if commit_raises t (OpSelect i) then (Raise StatementError, t)
  else (Ok None, t).
Proof.
  intros H. unfold query_one_or_none. now rewrite (filter_by_id_absent _ _ H).
Qed.

(** *** The short form *)

Lemma assoc_detail_filtered (k : string) (fs : list (string * json)) :
  is_detail k = true ->
  assoc k (filter (fun kv => negb (is_detail (fst kv))) fs) = None.
Proof.
  intros Hk. induction fs as [| [k' v] fs IH]; simpl; [reflexivity |].
  destruct (is_detail k') eqn:Hk'; simpl; [exact IH |].
  destruct (String.eqb_spec k k') as [-> | _]; [congruence | exact IH].
Qed.

Lemma omit_detail_no_detail (k : string) (ingredient : json) :
  is_detail k = true -> obj_get k (omit_detail ingredient) = None.
Proof.
  intros Hk. destruct ingredient; simpl; try reflexivity.
  now apply assoc_detail_filtered.
Qed.

(** No ingredient of a short-form recipe carries a color or a parts field. *)
Lemma short_recipe_no_detail (r ingredient : json) :
  In ingredient (ingredients_of (short_recipe r)) ->
  obj_get "color" ingredient = None /\ obj_get "parts" ingredient = None.
Proof.
  assert (Hone : forall x, obj_get "color" (omit_detail x) = None /\
                           obj_get "parts" (omit_detail x) = None).
  { intros x. split; now apply omit_detail_no_detail. }
  destruct r as [| b | n | s | items | fields]; simpl;
    try (intros [<- | []]; split; reflexivity).
  - intros Hin. apply in_map_iff in Hin. destruct Hin as [x [<- _]]. apply Hone.
  - intros [<- | []]. apply (Hone (JObj fields)).
Qed.

Lemma short_recipe_field (d : Drink) :
  obj_get "recipe" (short json_loads d) = Some (short_recipe (json_loads (recipe d))).
Proof. reflexivity. Qed.

(** *** Listings *)

Lemma get_drinks_empty :
  get_drinks json_loads [] = (Raise (HTTPException 404), []).
Proof. reflexivity. Qed.

Lemma get_drinks_rows (t : Table) :
  t <> [] ->
  get_drinks json_loads t =
  (Ok (JObj [("success", JBool true); ("drinks", JArr (map (short json_loads) t))]), t).
Proof. destruct t; [congruence | reflexivity]. Qed.

Lemma get_drinks_detail_rows (jwt : Claims) (t : Table) :
  t <> [] ->
  get_drinks_detail json_loads jwt t =
  (Ok (JObj [("success", JBool true); ("drinks", JArr (map (long json_loads) t))]), t).
Proof. destruct t; [congruence | reflexivity]. Qed.

(** C2. [GET /drinks] answers 404 on an empty table; on a table with rows
    it answers 200 with [success] true and, under [drinks], the short form
    of each row, one entry per row, no ingredient of which carries a color
    or a parts field. *)
Theorem get_drinks_short_listing (request : Request) (t : Table) :
  (t = [] ->
     run GET_drinks request t = (not_found, t) /\ status not_found = 404) /\
  (t <> [] ->
     run GET_drinks request t =
       (mkResponse 200
          (JsonBody (JObj [("success", JBool true);
                           ("drinks", JArr (map (short json_loads) t))])), t) /\
     List.length (map (short json_loads) t) = List.length t /\
     forall d r ingredient,
       In d t ->
       obj_get "recipe" (short json_loads d) = Some r ->
       In ingredient (ingredients_of r) ->
       obj_get "color" ingredient = None /\ obj_get "parts" ingredient = None).
Proof.
  split.
  - intros ->. split; reflexivity.
  - intros Hne. split; [| split].
    + unfold serve, view. now rewrite (get_drinks_rows _ Hne).
    + apply length_map.
    + intros d r ingredient _ Hr Hin.
      rewrite short_recipe_field in Hr. inversion Hr; subst r.
      now apply short_recipe_no_detail with (r := json_loads (recipe d)).
Qed.

(** C10. On a table with rows, [GET /drinks] and [GET /drinks-detail]
    both return, and are answered 200 with, a list that has one entry per
    row, in row order: entry [n] is the short form of row [n] in the one
    and the long form of row [n] in the other. *)
Theorem listings_agree_row_by_row (request detail_request : Request)
    (jwt : Claims) (t : Table) :
  t <> [] ->
  exists shorts longs,
    get_drinks json_loads t =
      (Ok (JObj [("success", JBool true); ("drinks", JArr shorts)]), t) /\
    get_drinks_detail json_loads jwt t =
      (Ok (JObj [("success", JBool true); ("drinks", JArr longs)]), t) /\
    List.length shorts = List.length t /\
    List.length longs = List.length t /\
    (forall n,
        nth_error shorts n = option_map (short json_loads) (nth_error t n) /\
        nth_error longs n = option_map (long json_loads) (nth_error t n)) /\
    run GET_drinks request t =
      (mkResponse 200 (JsonBody (JObj [("success", JBool true);
                                      ("drinks", JArr shorts)])), t) /\
    (checker "get:drinks-detail" detail_request = Ok jwt ->
     run GET_drinks_detail detail_request t =
       (mkResponse 200 (JsonBody (JObj [("success", JBool true);
                                       ("drinks", JArr longs)])), t)).
Proof.
  intros Hne.
  exists (map (short json_loads) t), (map (long json_loads) t).
  repeat split.
  - now apply get_drinks_rows.
  - now apply get_drinks_detail_rows.
  - apply length_map.
  - apply length_map.
  - apply nth_error_map.
  - apply nth_error_map.
  - unfold serve, view. now rewrite (get_drinks_rows _ Hne).
  - intros Hauth. unfold serve, view. rewrite (guarded_pass _ _ _ _ _ Hauth).
    now rewrite (get_drinks_detail_rows _ _ Hne).
Qed.

(** *** Failure responses *)

(** The three handlers behind [abort] answer with the uniform body. *)
Lemma abort_handlers_envelope :
  (status not_found = 404 /\ is_error_envelope not_found) /\
  (status unprocessable = 422 /\ is_error_envelope unprocessable) /\
  (status bad_request = 400 /\ is_error_envelope bad_request).
Proof.
  repeat split;
    (eexists; eexists; repeat split; reflexivity).
Qed.

Lemma default_page_not_envelope (code : Z) :
  ~ is_error_envelope (mkResponse code DefaultPage).
Proof. intros [j [text [Hb _]]]. discriminate Hb. Qed.

(** The body of an authorization failure is the error value of the
    exception: a code and a description, no [success] field. *)
Lemma auth_failure_not_envelope (f : auth_failure) :
  ~ is_error_envelope (dispatch (Raise (auth_error description f))).
Proof.
  intros [j [text [Hb [Hs _]]]]. simpl in Hb. inversion Hb; subst j.
  discriminate Hs.
Qed.

(** *** Deleting and editing an absent drink *)

(** With no row of the id, the view aborts with 404 when the lookup
    returns, and lets the raise of the lookup through when it does not:
    the query stands before the [try]. *)
Lemma delete_drink_absent (i : Z) (jwt : Claims) (t : Table) :
  (forall d, In d t -> id d <> i) ->
  delete_drink commit_raises i jwt t =
  (Raise (if commit_raises t (OpSelect i) then StatementError
          else HTTPException 404), t).
Proof.
  intros H. unfold delete_drink, bind. rewrite (query_absent _ _ H).
  now destruct (commit_raises t (OpSelect i)).
Qed.

Lemma edit_drink_absent (request : Request) (i : Z) (jwt : Claims) (t : Table) :
  (forall d, In d t -> id d <> i) ->
  edit_drink json_dumps json_loads commit_raises request i jwt t =
  (Raise (if commit_raises t (OpSelect i) then StatementError
          else HTTPException 404), t).
Proof.
  intros H. unfold edit_drink, bind. rewrite (query_absent _ _ H).
  now destruct (commit_raises t (OpSelect i)).
Qed.

(** [DELETE /drinks/<id>] with no drink of that id in the table, by a
    request the checker lets through: the not-found response when the
    lookup returns, a 500 when it raises; the table is as it was. *)
Lemma delete_absent_id_route (i : Z) (request : Request) (jwt : Claims)
    (t : Table) :
  (forall d, In d t -> id d <> i) ->
  checker "delete:drinks" request = Ok jwt ->
  run (DELETE_drinks i) request t =
  (if commit_raises t (OpSelect i) then mkResponse 500 DefaultPage
   else not_found, t).
Proof.
  intros Habs Hauth. unfold serve, view.
  rewrite (guarded_pass _ _ _ _ _ Hauth).
  rewrite (delete_drink_absent _ jwt _ Habs).
  now destruct (commit_raises t (OpSelect i)).
Qed.

(** The same for [PATCH /drinks/<id>], whatever the body. *)
Lemma edit_absent_id_route (i : Z) (request : Request) (jwt : Claims)
    (t : Table) :
  (forall d, In d t -> id d <> i) ->
  checker "patch:drinks" request = Ok jwt ->
  run (PATCH_drinks i) request t =
  (if commit_raises t (OpSelect i) then mkResponse 500 DefaultPage
   else not_found, t).
Proof.
  intros Habs Hauth. unfold serve, view.
  rewrite (guarded_pass _ _ _ _ _ Hauth).
  rewrite (edit_drink_absent request _ jwt _ Habs).
  now destruct (commit_raises t (OpSelect i)).
Qed.

(** With no drink of the id, no request to either route is answered 200
    or changes the table. *)
Lemma absent_id_never_200 (i : Z) (request : Request) (t : Table) :
  (forall d, In d t -> id d <> i) ->
  (status (fst (run (DELETE_drinks i) request t)) <> 200 /\
   snd (run (DELETE_drinks i) request t) = t) /\
  (status (fst (run (PATCH_drinks i) request t)) <> 200 /\
   snd (run (PATCH_drinks i) request t) = t).
Proof.
  intros Habs. split.
  - destruct (checker "delete:drinks" request) as [jwt | e] eqn:Hauth.
    + rewrite (delete_absent_id_route i request jwt t Habs Hauth).
      destruct (commit_raises t (OpSelect i)); simpl; split;
        (lia || reflexivity).
    + unfold serve, view.
      pose proof (guarded_stop_response "delete:drinks"
                    (delete_drink commit_raises i) request e t Hauth) as Hstop.
      cbv zeta in Hstop.
      destruct (guarded "delete:drinks" (delete_drink commit_raises i) request t)
        as [r t'].
      exact Hstop.
  - destruct (checker "patch:drinks" request) as [jwt | e] eqn:Hauth.
    + rewrite (edit_absent_id_route i request jwt t Habs Hauth).
      destruct (commit_raises t (OpSelect i)); simpl; split;
        (lia || reflexivity).
    + unfold serve, view.
      pose proof (guarded_stop_response "patch:drinks"
                    (edit_drink json_dumps json_loads commit_raises request i)
                    request e t Hauth) as Hstop.
      cbv zeta in Hstop.
      destruct (guarded "patch:drinks"
                  (edit_drink json_dumps json_loads commit_raises request i)
                  request t) as [r t'].
      exact Hstop.
Qed.

(** *** Creating a drink *)

(** [create_drink] on a body that has both keys, spelled out on the
    outcome of the commit. *)
Lemma create_drink_commit (request : Request) (jwt : Claims)
    (data new_title new_recipe : json) (t : Table) :
  payload request = Parsed data ->
  getitem data "title" = Ok new_title ->
  getitem data "recipe" = Ok new_recipe ->
  create_drink json_dumps json_loads commit_raises next_id request jwt t =
  if commit_raises t (OpInsert new_title (json_dumps new_recipe)) then
    (Raise (HTTPException 404), t)
  else
    let d := mkDrink (next_id t) new_title (json_dumps new_recipe) in
    (Ok (JObj [("success", JBool true); ("drinks", long json_loads d)]),
     (t ++ [d])%list).
Proof.
  intros Hp Ht Hr.
  unfold create_drink, bind, get_json, lift. rewrite Hp. unfold ret.
  rewrite Ht, Hr. unfold try_except, bind, insert.
  now destruct (commit_raises t (OpInsert new_title (json_dumps new_recipe))).
Qed.

(** C8. A create request that passed authorization and whose insert
    raises is answered with 404. *)
Theorem create_insert_raises_404 (request : Request) (jwt : Claims)
    (data new_title new_recipe : json) (t : Table) (e : exn) :
  checker "post:drinks" request = Ok jwt ->
  payload request = Parsed data ->
  getitem data "title" = Ok new_title ->
  getitem data "recipe" = Ok new_recipe ->
  fst (insert commit_raises next_id new_title (json_dumps new_recipe) t) = Raise e ->
  run POST_drinks request t = (not_found, t) /\ status not_found = 404.
Proof.
  intros Hauth Hp Ht Hr Hraise. split; [| reflexivity].
  unfold serve, view. rewrite (guarded_pass _ _ _ _ _ Hauth).
  rewrite (create_drink_commit _ _ _ _ _ _ Hp Ht Hr).
  unfold insert in Hraise.
  destruct (commit_raises t (OpInsert new_title (json_dumps new_recipe)));
    [reflexivity | discriminate Hraise].
Qed.

(** C4, as amended.  A create request with a token that grants
    [post:drinks] and a body with a title and a recipe, whose insert does
    not raise, adds one row holding the title and the serialized recipe,
    and is answered 200 with [success] true and, under [drinks], the long
    form of the new drink, which carries the generated identifier. *)
Theorem create_inserts_and_answers_long (request : Request) (jwt : Claims)
    (data new_title new_recipe : json) (t : Table) :
  checker "post:drinks" request = Ok jwt ->
  payload request = Parsed data ->
  getitem data "title" = Ok new_title ->
  getitem data "recipe" = Ok new_recipe ->
  (forall e,
      fst (insert commit_raises next_id new_title (json_dumps new_recipe) t)
      <> Raise e) ->
  let d := mkDrink (next_id t) new_title (json_dumps new_recipe) in
  run POST_drinks request t =
    (mkResponse 200
       (JsonBody (JObj [("success", JBool true); ("drinks", long json_loads d)])),
     (t ++ [d])%list) /\
  obj_get "id" (long json_loads d) = Some (JNum (next_id t)).
Proof.
  intros Hauth Hp Ht Hr Hgo d. split; [| reflexivity].
  unfold serve, view. rewrite (guarded_pass _ _ _ _ _ Hauth).
  rewrite (create_drink_commit _ _ _ _ _ _ Hp Ht Hr).
  unfold insert in Hgo.
  destruct (commit_raises t (OpInsert new_title (json_dumps new_recipe)));
    [exfalso; now apply (Hgo PersistenceError) | reflexivity].
Qed.

(** *** A body without its keys *)

Lemma filter_by_id_present (d : Drink) (t : Table) :
  NoDup (map id t) -> In d t -> filter_by_id (id d) t = [d].
Proof.
  unfold filter_by_id.
  induction t as [| d0 t IH]; intros Hnd Hin; [destruct Hin |].
  simpl in Hnd. inversion Hnd as [| x l Hfresh Hnd' ]; subst x l.
  simpl. destruct Hin as [-> | Hin].
  - rewrite Z.eqb_refl. f_equal.
    apply (filter_by_id_absent (id d) t).
    intros d' Hd' E. apply Hfresh. rewrite <- E. now apply in_map.
  - destruct (Z.eqb_spec (id d0) (id d)) as [E | _].
    + exfalso. apply Hfresh. rewrite E. now apply in_map.
    + now apply IH.
Qed.

Lemma create_drink_missing_key (request : Request) (jwt : Claims)
    (fields : list (string * json)) (t : Table) :
  payload request = Parsed (JObj fields) ->
  assoc "title" fields = None \/ assoc "recipe" fields = None ->
  create_drink json_dumps json_loads commit_raises next_id request jwt t =
  (Raise (KeyError (missing_key fields)), t).
Proof.
  intros Hp Hmiss.
  unfold create_drink, bind, get_json, lift, missing_key. rewrite Hp.
  unfold ret, getitem.
  destruct (assoc "title" fields) as [v |]; [| reflexivity].
  destruct Hmiss as [Hm | Hm]; [discriminate Hm | now rewrite Hm].
Qed.

Lemma edit_drink_missing_key (request : Request) (drink : Drink) (jwt : Claims)
    (fields : list (string * json)) (t : Table) :
  filter_by_id (id drink) t = [drink] ->
  payload request = Parsed (JObj fields) ->
  assoc "title" fields = None \/ assoc "recipe" fields = None ->
  edit_drink json_dumps json_loads commit_raises request (id drink) jwt t =
  (Raise (KeyError (missing_key fields)), t).
Proof.
  intros Hq Hp Hmiss.
  unfold edit_drink, bind, query_one_or_none. rewrite Hq. simpl.
  unfold get_json, lift, missing_key. rewrite Hp. unfold ret, getitem.
  destruct (assoc "title" fields) as [v |]; [| reflexivity].
  destruct Hmiss as [Hm | Hm]; [discriminate Hm | now rewrite Hm].
Qed.

(** The update the [is not None] guards of [edit_drink] are written
    for: with [recipe] spelled out as [null], the title changes and the
    recipe text stays. *)
Lemma edit_drink_null_recipe_keeps_recipe (request : Request) (drink : Drink)
    (jwt : Claims) (data new_title : json) (t : Table) :
  filter_by_id (id drink) t = [drink] ->
  payload request = Parsed data ->
  getitem data "title" = Ok new_title ->
  is_None new_title = false ->
  getitem data "recipe" = Ok JNull ->
  let renamed := mkDrink (id drink) new_title (recipe drink) in
  commit_raises t (OpUpdate renamed) = false ->
  edit_drink json_dumps json_loads commit_raises request (id drink) jwt t =
  (Ok (JObj [("success", JBool true); ("drinks", long json_loads renamed)]),
   map (fun r => if id r =? id drink then renamed else r) t).
Proof.
  intros Hq Hp Ht Hnn Hr renamed Hgo.
  unfold edit_drink, bind, query_one_or_none. rewrite Hq. simpl.
  unfold get_json, lift. rewrite Hp. unfold ret. rewrite Ht, Hr, Hnn. simpl.
  unfold try_except, bind, update. fold renamed. now rewrite Hgo.
Qed.

(** C9. A body that is a JSON object without the key [title] or without
    the key [recipe] makes [create_drink], and [edit_drink] on the id of a
    row of the table, raise [KeyError] whatever the store would have done
    with a commit; nothing catches it, so the answer is a 500 that is not
    the uniform error body, and the table is as it was. *)
Theorem missing_key_raises_uncaught (request : Request)
    (fields : list (string * json)) (t : Table) :
  payload request = Parsed (JObj fields) ->
  assoc "title" fields = None \/ assoc "recipe" fields = None ->
  (forall jwt,
      checker "post:drinks" request = Ok jwt ->
      create_drink json_dumps json_loads commit_raises next_id request jwt t =
        (Raise (KeyError (missing_key fields)), t) /\
      run POST_drinks request t = (mkResponse 500 DefaultPage, t) /\
      ~ is_error_envelope (fst (run POST_drinks request t)) /\
      ~ 400 <= status (fst (run POST_drinks request t)) < 500) /\
  (forall drink jwt,
      NoDup (map id t) ->
      In drink t ->
      checker "patch:drinks" request = Ok jwt ->
      edit_drink json_dumps json_loads commit_raises request (id drink) jwt t =
        (Raise (KeyError (missing_key fields)), t) /\
      run (PATCH_drinks (id drink)) request t = (mkResponse 500 DefaultPage, t) /\
      ~ is_error_envelope (fst (run (PATCH_drinks (id drink)) request t)) /\
      ~ 400 <= status (fst (run (PATCH_drinks (id drink)) request t)) < 500).
Proof.
  intros Hp Hmiss. split.
  - intros jwt Hauth.
    pose proof (create_drink_missing_key request jwt fields t Hp Hmiss) as Hraise.
    assert (Hrun : run POST_drinks request t = (mkResponse 500 DefaultPage, t)).
    { unfold serve, view. rewrite (guarded_pass _ _ _ _ _ Hauth).
      now rewrite Hraise. }
    rewrite Hrun. simpl.
    repeat split; [exact Hraise | apply default_page_not_envelope | lia].
  - intros drink jwt Hnd Hin Hauth.
    pose proof (edit_drink_missing_key request drink jwt fields t
                  (filter_by_id_present drink t Hnd Hin) Hp Hmiss) as Hraise.
    assert (Hrun : run (PATCH_drinks (id drink)) request t =
                   (mkResponse 500 DefaultPage, t)).
    { unfold serve, view. rewrite (guarded_pass _ _ _ _ _ Hauth).
      now rewrite Hraise. }
    rewrite Hrun. simpl.
    repeat split; [exact Hraise | apply default_page_not_envelope | lia].
Qed.

(** *** The permission check *)

Lemma existsb_eqb_absent (permission : string) (granted : list string) :
  ~ In permission granted -> existsb (String.eqb permission) granted = false.
Proof.
  induction granted as [| g granted IH]; intros Hnot; simpl; [reflexivity |].
  destruct (String.eqb_spec permission g) as [-> | _].
  - exfalso. apply Hnot. now left.
  - apply IH. intros Hin. apply Hnot. now right.
Qed.

(** C7. A token that verifies and whose permission set lacks the required
    permission makes the checker fail with insufficient-permission, whose
    status is 403; the guarded view is not run and the answer is a 403. *)
Theorem checker_insufficient_permission_403 (permission : string)
    (request : Request) (header token : string) (claims : Claims)
    (granted : list string) :
  authorization request = Some header ->
  split_ws None header = ["Bearer"; token] ->
  jwt_decode token = Verified claims ->
  permissions claims = Some granted ->
  ~ In permission granted ->
  checker permission request = Raise (auth_error description insufficient_permission) /\
  failure_status insufficient_permission = 403 /\
  forall (f : Claims -> M json) (t : Table),
    guarded permission f request t =
      (Raise (auth_error description insufficient_permission), t) /\
    status (dispatch (fst (guarded permission f request t))) = 403.
Proof.
  intros Hh Hsplit Hdec Hperm Hnot.
  assert (Hc : checker permission request =
               Raise (auth_error description insufficient_permission)).
  { unfold check_auth, get_token_auth_header. rewrite Hh, Hsplit. simpl.
    unfold verify_decode_jwt. rewrite Hdec.
    unfold check_permissions. rewrite Hperm.
    now rewrite (existsb_eqb_absent _ _ Hnot). }
  split; [exact Hc | split; [reflexivity |]].
  intros f t. rewrite (guarded_stop _ _ _ _ _ Hc). split; reflexivity.
Qed.

End Properties.

(* ===================================================================== *)
(** ** The properties on concrete requests *)
(* ===================================================================== *)

Import Demo.

Lemma menu_ids_absent (i : Z) :
  i <> 1 -> i <> 2 -> forall d, In d [water; latte] -> id d <> i.
Proof.
  intros H1 H2 d [<- | [<- | []]]; simpl; congruence.
Qed.

Lemma menu_ids_distinct : NoDup (map id [water; latte]).
Proof.
  simpl. constructor.
  - intros [H | []]. discriminate H.
  - constructor; [intros [] | constructor].
Qed.

(** C1.  [PATCH /drinks/1] with the body [{"title": "NewName"}] on a table
    that has drink 1: the subscript [data['recipe']] raises [KeyError]
    before the title is assigned, the answer is a 500 and no row changes.
    The update that keeps the recipe is reached only when the body spells
    the key out with [null]. *)
Theorem patch_title_only_raises :
  shop store_up (PATCH_drinks 1) (manager rename_body) [water; latte] =
    (mkResponse 500 DefaultPage, [water; latte]) /\
  (forall json_dumps json_loads commit_raises jwt,
      edit_drink json_dumps json_loads commit_raises (manager rename_body) 1 jwt
        [water; latte] =
      (Raise (KeyError "recipe"), [water; latte])) /\
  snd (shop store_up (PATCH_drinks 1)
         (manager (JObj [("title", JStr "NewName"); ("recipe", JNull)]))
         [water; latte]) =
    [mkDrink 1 (JStr "NewName") (recipe water); latte].
Proof.
  split; [| split].
  - vm_compute. reflexivity.
  - intros json_dumps json_loads commit_raises jwt. reflexivity.
  - vm_compute. reflexivity.
Qed.

(** C6.  Two failure responses that are not the uniform error body: a
    request without an Authorization header to a guarded route is answered
    401 with the checker's code and description and no [success] field;
    a create request whose body has no keys is answered 500 with no JSON
    body at all. *)
Theorem failure_bodies_not_uniform :
  (forall json_dumps json_loads commit_raises next_id jwt_decode description t,
      let r := fst (serve json_dumps json_loads commit_raises next_id jwt_decode
                      description GET_drinks_detail anonymous t) in
      status r = 401 /\
      body r = JsonBody (JObj [("code", JStr "missing-header");
                               ("description", JStr (description missing_header))]) /\
      ~ is_error_envelope r) /\
  (let r := fst (shop store_up POST_drinks (manager (JObj [])) [water; latte]) in
   status r = 500 /\ ~ envelope_status (status r) /\ ~ is_error_envelope r).
Proof.
  split.
  - intros. subst r. cbn. split; [reflexivity | split; [reflexivity |]].
    apply (auth_failure_not_envelope description missing_header).
  - cbv zeta.
    change (fst (shop store_up POST_drinks (manager (JObj [])) [water; latte]))
      with (mkResponse 500 DefaultPage).
    split; [reflexivity | split].
    + unfold envelope_status. simpl. lia.
    + apply default_page_not_envelope.
Qed.

(** C3.  [DELETE /drinks/9223372036854775808] on a table with no such
    drink, by a request that may delete: the query of [delete_drink]
    stands before the [try], the store cannot bind the identifier and the
    raise reaches Flask, which answers 500 where the docstring asks for
    404; the table is as it was.  An absent identifier the store can bind
    is answered with the not-found response. *)
Theorem delete_unbindable_id_500 :
  (forall d, In d [water; latte] -> id d <> beyond) /\
  shop int64_store (DELETE_drinks beyond) (manager JNull) [water; latte] =
    (mkResponse 500 DefaultPage, [water; latte]) /\
  (forall jwt,
      delete_drink int64_store beyond jwt [water; latte] =
      (Raise StatementError, [water; latte])) /\
  shop int64_store (DELETE_drinks 7) (manager JNull) [water; latte] =
    (not_found, [water; latte]).
Proof.
  split; [| split; [| split]].
  - intros d [<- | [<- | []]]; discriminate.
  - vm_compute. reflexivity.
  - intros jwt. reflexivity.
  - vm_compute. reflexivity.
Qed.

(** C5.  [PATCH /drinks/9223372036854775808] on a table with no such
    drink, by a request that may patch: the query of [edit_drink] stands
    before the [try], the store cannot bind the identifier and the raise
    reaches Flask, which answers 500 where the docstring asks for 404; no
    row is modified.  An absent identifier the store can bind is answered
    with the not-found response. *)
Theorem edit_unbindable_id_500 :
  (forall d, In d [water; latte] -> id d <> beyond) /\
  shop int64_store (PATCH_drinks beyond) (manager rename_body) [water; latte] =
    (mkResponse 500 DefaultPage, [water; latte]) /\
  (forall json_dumps json_loads request jwt,
      edit_drink json_dumps json_loads int64_store request beyond jwt
        [water; latte] =
      (Raise StatementError, [water; latte])) /\
  shop int64_store (PATCH_drinks 7) (manager rename_body) [water; latte] =
    (not_found, [water; latte]).
Proof.
  split; [| split; [| split]].
  - intros d [<- | [<- | []]]; discriminate.
  - vm_compute. reflexivity.
  - intros json_dumps json_loads request jwt. reflexivity.
  - vm_compute. reflexivity.
Qed.

(** C4, as stated, fails on a store whose commit raises: the token grants
    [post:drinks], the body has a title and a recipe, and the answer is
    404 with no row added. *)
Lemma create_on_store_down_counterexample :
  check_auth decode describe "post:drinks" (manager tea_body) = Ok manager_claims /\
  getitem tea_body "title" = Ok (JStr "Tea") /\
  getitem tea_body "recipe" = Ok water_recipe /\
  status (fst (shop store_down POST_drinks (manager tea_body) [water])) = 404 /\
  status (fst (shop store_down POST_drinks (manager tea_body) [water])) <> 200 /\
  snd (shop store_down POST_drinks (manager tea_body) [water]) = [water].
Proof.
  repeat split; try reflexivity. vm_compute. discriminate.
Qed.

(** *** Instances *)

Lemma get_drinks_short_listing_witness :
  shop store_up GET_drinks anonymous [] = (not_found, []) /\
  [water; latte] <> [] /\
  shop store_up GET_drinks anonymous [water; latte] =
    (mkResponse 200
       (JsonBody
          (JObj [("success", JBool true);
                 ("drinks",
                  JArr [JObj [("id", JNum 1); ("title", JStr "Water");
                              ("recipe", JArr [JObj [("name", JStr "water")]])];
                        JObj [("id", JNum 2); ("title", JStr "Latte");
                              ("recipe", JArr [JObj [("name", JStr "milk")];
                                               JObj [("name", JStr "coffee")]])]])])),
     [water; latte]).
Proof.
  assert (Hne : [water; latte] <> []) by discriminate.
  split; [| split; [exact Hne |]].
  - exact (proj1 (proj1 (get_drinks_short_listing PyJson.dumps PyJson.loads
                           store_up serial_id decode describe anonymous [])
                    eq_refl)).
  - exact (proj1 (proj2 (get_drinks_short_listing PyJson.dumps PyJson.loads
                           store_up serial_id decode describe anonymous
                           [water; latte])
                    Hne)).
Defined.

Lemma listings_agree_row_by_row_witness :
  [water; latte] <> [] /\
  exists shorts longs,
    shop store_up GET_drinks anonymous [water; latte] =
      (mkResponse 200 (JsonBody (JObj [("success", JBool true);
                                      ("drinks", JArr shorts)])), [water; latte]) /\
    shop store_up GET_drinks_detail (barista JNull) [water; latte] =
      (mkResponse 200 (JsonBody (JObj [("success", JBool true);
                                      ("drinks", JArr longs)])), [water; latte]) /\
    List.length shorts = 2%nat /\
    List.length longs = 2%nat /\
    forall n,
      nth_error shorts n = option_map (short PyJson.loads) (nth_error [water; latte] n) /\
      nth_error longs n = option_map (long PyJson.loads) (nth_error [water; latte] n).
Proof.
  assert (Hne : [water; latte] <> []) by discriminate.
  split; [exact Hne |].
  destruct (listings_agree_row_by_row PyJson.dumps PyJson.loads store_up serial_id
              decode describe anonymous (barista JNull) barista_claims
              [water; latte] Hne)
    as [shorts [longs [_ [_ [Hs [Hl [Hn [Hrun Hdetail]]]]]]]].
  exists shorts, longs.
  split; [exact Hrun | split; [exact (Hdetail eq_refl) |]].
  split; [exact Hs | split; [exact Hl | exact Hn]].
Defined.

Lemma create_insert_raises_404_witness :
  fst (insert store_down serial_id (JStr "Tea") (PyJson.dumps water_recipe) [water]) =
    Raise PersistenceError /\
  shop store_down POST_drinks (manager tea_body) [water] = (not_found, [water]).
Proof.
  split; [reflexivity |].
  exact (proj1 (create_insert_raises_404 PyJson.dumps PyJson.loads store_down
                  serial_id decode describe (manager tea_body) manager_claims
                  tea_body (JStr "Tea") water_recipe [water] PersistenceError
                  eq_refl eq_refl eq_refl eq_refl eq_refl)).
Defined.

Lemma create_inserts_and_answers_long_witness :
  (forall e,
      fst (insert store_up serial_id (JStr "Tea") (PyJson.dumps water_recipe) [water])
      <> Raise e) /\
  shop store_up POST_drinks (manager tea_body) [water] =
    (mkResponse 200
       (JsonBody
          (JObj [("success", JBool true);
                 ("drinks",
                  long PyJson.loads
                    (mkDrink 2 (JStr "Tea") (PyJson.dumps water_recipe)))])),
     [water; mkDrink 2 (JStr "Tea") (PyJson.dumps water_recipe)]).
Proof.
  assert (Hgo : forall e,
             fst (insert store_up serial_id (JStr "Tea")
                    (PyJson.dumps water_recipe) [water]) <> Raise e)
    by (intros e; simpl; discriminate).
  split; [exact Hgo |].
  exact (proj1 (create_inserts_and_answers_long PyJson.dumps PyJson.loads
                  store_up serial_id decode describe (manager tea_body)
                  manager_claims tea_body (JStr "Tea") water_recipe [water]
                  eq_refl eq_refl eq_refl eq_refl Hgo)).
Defined.

Lemma missing_key_raises_uncaught_witness :
  assoc "recipe" [("title", JStr "NewName")] = None /\
  NoDup (map id [water; latte]) /\
  shop store_up POST_drinks (manager rename_body) [water; latte] =
    (mkResponse 500 DefaultPage, [water; latte]) /\
  shop store_up (PATCH_drinks 1) (manager rename_body) [water; latte] =
    (mkResponse 500 DefaultPage, [water; latte]).
Proof.
  pose proof (missing_key_raises_uncaught PyJson.dumps PyJson.loads store_up
                serial_id decode describe (manager rename_body)
                [("title", JStr "NewName")] [water; latte]
                eq_refl (or_intror eq_refl)) as [Hpost Hpatch].
  split; [reflexivity | split; [exact menu_ids_distinct | split]].
  - exact (proj1 (proj2 (Hpost manager_claims eq_refl))).
  - exact (proj1 (proj2 (Hpatch water manager_claims menu_ids_distinct
                           (or_introl eq_refl) eq_refl))).
Defined.

Lemma checker_insufficient_permission_403_witness :
  ~ In "post:drinks" ["get:drinks-detail"] /\
  check_auth decode describe "post:drinks" (barista tea_body) =
    Raise (auth_error describe insufficient_permission) /\
  status (fst (shop store_up POST_drinks (barista tea_body) [water])) = 403.
Proof.
  assert (Hnot : ~ In "post:drinks" ["get:drinks-detail"])
    by (intros [H | []]; discriminate H).
  pose proof (checker_insufficient_permission_403 decode describe "post:drinks"
                (barista tea_body) "Bearer barista.jwt" "barista.jwt"
                barista_claims ["get:drinks-detail"]
                eq_refl eq_refl eq_refl eq_refl Hnot) as [Hc [_ Hrun]].
  split; [exact Hnot | split; [exact Hc |]].
  exact (proj2 (Hrun (create_drink PyJson.dumps PyJson.loads store_up serial_id
                        (barista tea_body)) [water])).
Defined.

(* ===================================================================== *)
(** ** Further properties of the views *)
(* ===================================================================== *)

Section Views.

Variable json_dumps : json -> string.
Variable json_loads : string -> json.
Variable commit_raises : Table -> db_op -> bool.
Variable next_id : Table -> Z.
Variable jwt_decode : string -> verdict.
Variable description : auth_failure -> string.

Local Abbreviation run :=
  (serve json_dumps json_loads commit_raises next_id jwt_decode description).
Local Abbreviation route :=
  (view json_dumps json_loads commit_raises next_id jwt_decode description).
Local Abbreviation checker := (check_auth jwt_decode description).
Local Abbreviation guarded := (requires_auth jwt_decode description).

(** The outcome of a computation: a returned body says [success: true]
    and may have written; a raise is one a view lets escape, at the table
    the computation started from. *)
Local Abbreviation settled m t :=
  (match m t with
   | (Ok j, _) => obj_get "success" j = Some (JBool true)
   | (Raise e, t') => raised_by_view e /\ t' = t
   end).

(** Case analysis on the scrutinees that hold no further match. *)
Ltac view_cases :=
  repeat (simpl;
          match goal with
          | |- context [match ?x with _ => _ end] =>
              lazymatch x with
              | context [match _ with _ => _ end] => fail
              | _ => destruct x eqn:?
              end
          end);
  simpl; auto.

Lemma get_drinks_settled (t : Table) : settled (get_drinks json_loads) t.
Proof. destruct t; simpl; auto. Qed.

Lemma get_drinks_detail_settled (jwt : Claims) (t : Table) :
  settled (get_drinks_detail json_loads jwt) t.
Proof. destruct t; simpl; auto. Qed.

Lemma create_drink_settled (request : Request) (jwt : Claims) (t : Table) :
  settled (create_drink json_dumps json_loads commit_raises next_id request jwt) t.
Proof.
  unfold create_drink, bind, get_json, lift, getitem, try_except, insert, abort,
    raise, ret, jsonify.
  view_cases.
Qed.

Lemma edit_drink_settled (request : Request) (i : Z) (jwt : Claims) (t : Table) :
  settled (edit_drink json_dumps json_loads commit_raises request i jwt) t.
Proof.
  unfold edit_drink, bind, query_one_or_none, one_or_none, get_json, lift,
    getitem, try_except, update, abort, raise, ret, jsonify.
  view_cases.
Qed.

Lemma delete_drink_settled (i : Z) (jwt : Claims) (t : Table) :
  settled (delete_drink commit_raises i jwt) t.
Proof.
  unfold delete_drink, bind, query_one_or_none, one_or_none, try_except,
    delete, abort, raise, ret, jsonify.
  view_cases.
Qed.

(** The same for a route, where the checker may stop the request. *)
Lemma route_settled (op : Operation) (request : Request) (t : Table) :
  match route op request t with
  | (Ok j, _) => obj_get "success" j = Some (JBool true)
  | (Raise e, t') =>
      (raised_by_view e \/ exists f, e = auth_error description f) /\ t' = t
  end.
Proof.
  assert (Hg : forall permission (f : Claims -> M json),
             (forall jwt, settled (f jwt) t) ->
             match guarded permission f request t with
             | (Ok j, _) => obj_get "success" j = Some (JBool true)
             | (Raise e, t') =>
                 (raised_by_view e \/ exists k, e = auth_error description k) /\ t' = t
             end).
  { intros permission f Hf.
    destruct (checker permission request) as [jwt | e] eqn:Hc.
    - rewrite (guarded_pass _ _ _ _ _ _ _ Hc). specialize (Hf jwt).
      destruct (f jwt t) as [[j | e] t']; [exact Hf |].
      destruct Hf as [He ->]. auto.
    - rewrite (guarded_stop _ _ _ _ _ _ _ Hc).
      split; [right; now apply (checker_raises_auth_error _ _ _ _ _ Hc) | reflexivity]. }
  destruct op as [| | | i | i]; unfold view.
  - pose proof (get_drinks_settled t) as H.
    destruct (get_drinks json_loads t) as [[j | e] t']; [exact H |].
    destruct H as [He ->]. auto.
  - apply Hg. intros jwt. apply get_drinks_detail_settled.
  - apply Hg. intros jwt. apply create_drink_settled.
  - apply Hg. intros jwt. apply edit_drink_settled.
  - apply Hg. intros jwt. apply delete_drink_settled.
Qed.

(** What [dispatch] makes of a raise that reaches it. *)
Lemma escaped_response (e : exn) :
  raised_by_view e \/ (exists f, e = auth_error description f) ->
  let r := dispatch (Raise e) in
  (status r = 400 \/ status r = 401 \/ status r = 403 \/ status r = 404 \/
   status r = 500) /\
  ~ (exists j, body r = JsonBody j /\ obj_get "success" j = Some (JBool true)).
Proof.
  intros [He | [f ->]]; cbv zeta.
  - destruct e as [code | k | | | | err sc |]; simpl in He; try contradiction.
    + destruct He as [-> | ->]; simpl;
        (split; [auto 6 | intros [j [Hb Hs]]; inversion Hb; subst j; discriminate Hs]).
    + simpl. split; [auto 6 | intros [j [Hb _]]; discriminate Hb].
    + simpl. split; [auto 6 | intros [j [Hb _]]; discriminate Hb].
    + simpl. split; [auto 6 | intros [j [Hb _]]; discriminate Hb].
    + simpl. split; [auto 6 | intros [j [Hb _]]; discriminate Hb].
  - split.
    + change (status (dispatch (Raise (auth_error description f))))
        with (failure_status f).
      destruct (failure_status_401_403 f) as [-> | ->]; auto 6.
    + intros [j [Hb Hs]]. simpl in Hb. inversion Hb; subst j. discriminate Hs.
Qed.

(** *** Reading the outcome of a route back *)

Lemma guarded_ok_inv (permission : string) (f : Claims -> M json)
    (request : Request) (t t' : Table) (j : json) :
  guarded permission f request t = (Ok j, t') ->
  exists jwt, checker permission request = Ok jwt /\ f jwt t = (Ok j, t').
Proof.
  destruct (checker permission request) as [jwt | e] eqn:Hc.
  - rewrite (guarded_pass _ _ _ _ _ _ _ Hc). intros H. now exists jwt.
  - rewrite (guarded_stop _ _ _ _ _ _ _ Hc). discriminate.
Qed.

(** A 200 comes from a view that returned. *)
Lemma status_200_returned (op : Operation) (request : Request) (t : Table) :
  status (fst (run op request t)) = 200 ->
  exists j,
    route op request t = (Ok j, snd (run op request t)) /\
    fst (run op request t) = mkResponse 200 (JsonBody j).
Proof.
  unfold serve.
  pose proof (route_settled op request t) as H.
  destruct (route op request t) as [[j | e] t']; cbn [fst snd].
  - intros _. now exists j.
  - destruct H as [He _]. destruct (escaped_response e He) as [Hs _]. lia.
Qed.

(** *** Rows and identifiers *)

Lemma filter_by_id_single (i : Z) (drink : Drink) (t : Table) :
  filter_by_id i t = [drink] ->
  id drink = i /\ In drink t /\ forall r, In r t -> id r = i -> r = drink.
Proof.
  unfold filter_by_id. intros Hf.
  assert (Hin : In drink (filter (fun d => id d =? i) t))
    by (rewrite Hf; now left).
  apply filter_In in Hin. destruct Hin as [Hin Hid].
  split; [now apply Z.eqb_eq | split; [exact Hin |]].
  intros r Hr Hri.
  assert (Hr' : In r (filter (fun d => id d =? i) t))
    by (apply filter_In; split; [exact Hr | now apply Z.eqb_eq]).
  rewrite Hf in Hr'. destruct Hr' as [-> | []]. reflexivity.
Qed.


Lemma replace_keeps_ids (d : Drink) (t : Table) :
  map id (map (fun r => if id r =? id d then d else r) t) = map id t.
Proof.
  rewrite map_map. apply map_ext. intros r.
  destruct (Z.eqb_spec (id r) (id d)) as [E | _]; [now rewrite E | reflexivity].
Qed.

Lemma replace_by_itself (d : Drink) (t : Table) :
  (forall r, In r t -> id r = id d -> r = d) ->
  map (fun r => if id r =? id d then d else r) t = t.
Proof.
  intros Huniq. rewrite <- (map_id t) at 2. apply map_ext_in.
  intros r Hr. destruct (Z.eqb_spec (id r) (id d)) as [E | _];
    [symmetry; now apply Huniq | reflexivity].
Qed.

Lemma NoDup_map_filter (p : Drink -> bool) (t : Table) :
  NoDup (map id t) -> NoDup (map id (filter p t)).
Proof.
  induction t as [| d t IH]; intros Hnd; simpl; [constructor |].
  simpl in Hnd. inversion Hnd as [| x l Hfresh Hnd']; subst x l.
  destruct (p d); simpl; [constructor |]; auto.
  intros Hin. apply Hfresh. apply in_map_iff in Hin.
  destruct Hin as [r [<- Hr]]. apply filter_In in Hr. now apply in_map.
Qed.

Lemma NoDup_map_snoc (d : Drink) (t : Table) :
  NoDup (map id t) -> ~ In (id d) (map id t) -> NoDup (map id (t ++ [d])).
Proof.
  intros Hnd Hfresh. rewrite map_app. simpl.
  apply NoDup_app; [exact Hnd | repeat constructor; intros [] |].
  intros x Hx [<- | []]. now apply Hfresh.
Qed.

Lemma filter_out_one (drink : Drink) (t : Table) :
  NoDup (map id t) ->
  In drink t ->
  S (List.length (filter (fun r => negb (id r =? id drink)) t)) = List.length t.
Proof.
  induction t as [| d t IH]; intros Hnd Hin; [destruct Hin |].
  simpl in Hnd. inversion Hnd as [| x l Hfresh Hnd']; subst x l.
  simpl. destruct Hin as [-> | Hin].
  - rewrite Z.eqb_refl. simpl. f_equal.
    rewrite forallb_filter_id; [reflexivity |].
    apply forallb_forall. intros r Hr.
    destruct (Z.eqb_spec (id r) (id drink)) as [E | _]; [| reflexivity].
    exfalso. apply Hfresh. rewrite <- E. now apply in_map.
  - destruct (Z.eqb_spec (id d) (id drink)) as [E | _].
    + exfalso. apply Hfresh. rewrite E. now apply in_map.
    + simpl. f_equal. now apply IH.
Qed.

(** *** The table after each view *)

Lemma create_drink_table (request : Request) (jwt : Claims) (t : Table) :
  match create_drink json_dumps json_loads commit_raises next_id request jwt t with
  | (Ok j, t') =>
      exists new_title new_recipe,
        let d := mkDrink (next_id t) new_title (json_dumps new_recipe) in
        j = JObj [("success", JBool true); ("drinks", long json_loads d)] /\
        t' = (t ++ [d])%list
  | (Raise _, t') => t' = t
  end.
Proof.
  unfold create_drink, bind, get_json, lift, getitem, try_except, insert, abort,
    raise, ret, jsonify.
  view_cases.
  eexists; eexists; split; reflexivity.
Qed.

(** The drink [edit_drink] commits: a field takes the value of its key
    unless that value is [null]. *)
Lemma edit_drink_commit (request : Request) (drink : Drink) (jwt : Claims)
    (data new_title new_recipe : json) (t : Table) :
  filter_by_id (id drink) t = [drink] ->
  payload request = Parsed data ->
  getitem data "title" = Ok new_title ->
  getitem data "recipe" = Ok new_recipe ->
  let edited :=
    mkDrink (id drink)
      (if is_None new_title then title drink else new_title)
      (if is_None new_recipe then recipe drink else json_dumps new_recipe) in
  edit_drink json_dumps json_loads commit_raises request (id drink) jwt t =
  if commit_raises t (OpUpdate edited) then (Raise (HTTPException 404), t)
  else
    (Ok (JObj [("success", JBool true); ("drinks", long json_loads edited)]),
     map (fun r => if id r =? id drink then edited else r) t).
Proof.
  intros Hq Hp Ht Hr edited.
  unfold edit_drink, bind, query_one_or_none. rewrite Hq. simpl.
  unfold get_json, lift. rewrite Hp. unfold ret. rewrite Ht, Hr.
  assert (Hed : (if is_None new_recipe
                 then (if is_None new_title then drink
                       else mkDrink (id drink) new_title (recipe drink))
                 else mkDrink
                        (id (if is_None new_title then drink
                             else mkDrink (id drink) new_title (recipe drink)))
                        (title (if is_None new_title then drink
                                else mkDrink (id drink) new_title (recipe drink)))
                        (json_dumps new_recipe)) = edited).
  { unfold edited. destruct drink as [i0 t0 r0].
    destruct (is_None new_title), (is_None new_recipe); reflexivity. }
  cbv zeta. rewrite Hed.
  unfold try_except, bind, update. change (id edited) with (id drink).
  now destruct (commit_raises t (OpUpdate edited)).
Qed.

Lemma edit_drink_table (request : Request) (i : Z) (jwt : Claims) (t : Table) :
  match edit_drink json_dumps json_loads commit_raises request i jwt t with
  | (Ok _, t') => table_after json_dumps next_id (PATCH_drinks i) t t'
  | (Raise _, t') => t' = t
  end.
Proof.
  unfold table_after.
  destruct (filter_by_id i t) as [| drink [| other rest]] eqn:Hq;
    try (unfold edit_drink, bind, query_one_or_none; rewrite Hq;
         try destruct (commit_raises t (OpSelect i)); reflexivity).
  destruct (filter_by_id_single i drink t Hq) as [<- _].
  destruct (payload request) as [data |] eqn:Hp;
    [| unfold edit_drink, bind, query_one_or_none, get_json;
       rewrite Hq, Hp; reflexivity].
  destruct (getitem data "title") as [new_title | e1] eqn:Ht;
    [| unfold edit_drink, bind, query_one_or_none, get_json, lift;
       rewrite Hq, Hp; simpl; rewrite Ht; reflexivity].
  destruct (getitem data "recipe") as [new_recipe | e2] eqn:Hr;
    [| unfold edit_drink, bind, query_one_or_none, get_json, lift;
       rewrite Hq, Hp; simpl; rewrite Ht, Hr; reflexivity].
  rewrite (edit_drink_commit request drink jwt data new_title new_recipe t
             Hq Hp Ht Hr).
  cbv zeta.
  match goal with
  | |- context [OpUpdate ?d] => set (edited := d)
  end.
  destruct (commit_raises t (OpUpdate edited)); [reflexivity |].
  exists drink, edited.
  split; [reflexivity | split; [reflexivity | split; [| reflexivity]]].
  unfold edited. simpl. destruct (is_None new_recipe); eauto.
Qed.

(** [delete_drink] on the id of the one row that has it, spelled out on
    the outcome of the commit. *)
Lemma delete_drink_commit (drink : Drink) (jwt : Claims) (t : Table) :
  filter_by_id (id drink) t = [drink] ->
  delete_drink commit_raises (id drink) jwt t =
  if commit_raises t (OpDelete drink) then (Raise (HTTPException 404), t)
  else
    (Ok (JObj [("success", JBool true); ("id", JNum (id drink))]),
     filter (fun r => negb (id r =? id drink)) t).
Proof.
  intros Hq. unfold delete_drink, bind, query_one_or_none. rewrite Hq. simpl.
  unfold try_except, bind, delete.
  now destruct (commit_raises t (OpDelete drink)).
Qed.

(** The table [delete_drink] leaves: the one it found, or that one less
    the rows of the id. *)
Lemma delete_drink_table (i : Z) (jwt : Claims) (t : Table) :
  match delete_drink commit_raises i jwt t with
  | (Ok _, t') => table_after json_dumps next_id (DELETE_drinks i) t t'
  | (Raise _, t') => t' = t
  end.
Proof.
  unfold table_after, delete_drink, bind, query_one_or_none.
  destruct (filter_by_id i t) as [| drink [| other rest]] eqn:Hq; simpl;
    try reflexivity.
  - now destruct (commit_raises t (OpSelect i)).
  - destruct (filter_by_id_single i drink t Hq) as [<- _].
    unfold try_except, bind, delete.
    destruct (commit_raises t (OpDelete drink)); [reflexivity |].
    split; [now exists drink | reflexivity].
Qed.

(** One request, one step of the table: unless the answer is a 200 the
    table is as it was, and a 200 has done what its route does. *)
Lemma route_step (op : Operation) (request : Request) (t : Table) :
  (status (fst (run op request t)) <> 200 /\ snd (run op request t) = t) \/
  (status (fst (run op request t)) = 200 /\
   table_after json_dumps next_id op t (snd (run op request t))).
Proof.
  destruct (Z.eq_dec (status (fst (run op request t))) 200) as [Hs | Hs];
    [right | left]; (split; [exact Hs |]).
  - destruct (status_200_returned _ _ _ Hs) as [j [Hroute _]].
    set (t' := snd (run op request t)) in *. clearbody t'.
    destruct op as [| | | i | i]; unfold view in Hroute.
    + destruct t as [| d t]; [discriminate Hroute |].
      rewrite (get_drinks_rows json_loads (d :: t)) in Hroute by discriminate.
      simpl. congruence.
    + destruct (guarded_ok_inv _ _ _ _ _ _ Hroute) as [jwt [_ Hview]].
      destruct t as [| d t]; [discriminate Hview |].
      rewrite (get_drinks_detail_rows json_loads jwt (d :: t)) in Hview
        by discriminate.
      simpl. congruence.
    + destruct (guarded_ok_inv _ _ _ _ _ _ Hroute) as [jwt [_ Hview]].
      pose proof (create_drink_table request jwt t) as Ht. rewrite Hview in Ht.
      destruct Ht as [new_title [new_recipe [_ Ht]]].
      now exists new_title, new_recipe.
    + destruct (guarded_ok_inv _ _ _ _ _ _ Hroute) as [jwt [_ Hview]].
      pose proof (edit_drink_table request i jwt t) as Ht.
      now rewrite Hview in Ht.
    + destruct (guarded_ok_inv _ _ _ _ _ _ Hroute) as [jwt [_ Hview]].
      pose proof (delete_drink_table i jwt t) as Ht.
      now rewrite Hview in Ht.
  - unfold serve in *.
    pose proof (route_settled op request t) as H.
    destruct (route op request t) as [[j | e] t']; cbn [fst snd] in *.
    + now contradiction Hs.
    + now destruct H.
Qed.

Lemma table_after_unique (op : Operation) (t t' : Table) :
  ~ In (next_id t) (map id t) ->
  NoDup (map id t) ->
  table_after json_dumps next_id op t t' ->
  NoDup (map id t').
Proof.
  intros Hfresh Hnd Hafter. destruct op as [| | | i | i]; simpl in Hafter.
  - now subst t'.
  - now subst t'.
  - destruct Hafter as [new_title [new_recipe ->]]. now apply NoDup_map_snoc.
  - destruct Hafter as [drink [edited [_ [<- [_ ->]]]]].
    now rewrite replace_keeps_ids.
  - destruct Hafter as [_ ->]. now apply NoDup_map_filter.
Qed.

Lemma table_after_serialized (op : Operation) (t t' : Table) :
  Forall (fun d => exists j, recipe d = json_dumps j) t ->
  table_after json_dumps next_id op t t' ->
  Forall (fun d => exists j, recipe d = json_dumps j) t'.
Proof.
  intros Hinv Hafter. destruct op as [| | | i | i]; simpl in Hafter.
  - now subst t'.
  - now subst t'.
  - destruct Hafter as [new_title [new_recipe ->]].
    apply Forall_app. split; [exact Hinv |].
    constructor; [now exists new_recipe | constructor].
  - destruct Hafter as [drink [edited [Hq [_ [Hrec ->]]]]].
    destruct (filter_by_id_single i drink t Hq) as [_ [Hin _]].
    rewrite Forall_forall in Hinv. apply Forall_forall.
    intros r Hr. apply in_map_iff in Hr. destruct Hr as [r0 [<- Hr0]].
    destruct (id r0 =? i); [| now apply Hinv].
    destruct Hrec as [-> | Hj]; [now apply Hinv | exact Hj].
  - destruct Hafter as [_ ->].
    rewrite Forall_forall in Hinv. apply Forall_forall.
    intros r Hr. apply filter_In in Hr. now apply Hinv.
Qed.

Lemma table_after_rows (op : Operation) (t t' : Table) :
  NoDup (map id t) ->
  table_after json_dumps next_id op t t' ->
  match op with
  | POST_drinks => List.length t' = S (List.length t)
  | DELETE_drinks _ => S (List.length t') = List.length t
  | _ => List.length t' = List.length t
  end.
Proof.
  intros Hnd Hafter. destruct op as [| | | i | i]; simpl in Hafter.
  - now subst t'.
  - now subst t'.
  - destruct Hafter as [new_title [new_recipe ->]].
    rewrite length_app. simpl. lia.
  - destruct Hafter as [drink [edited [_ [_ [_ ->]]]]]. apply length_map.
  - destruct Hafter as [[drink Hq] ->].
    destruct (filter_by_id_single i drink t Hq) as [<- [Hin _]].
    now apply filter_out_one.
Qed.

(** *** Statuses and bodies *)

(** X1. Whatever the operation, the request and the table, the answer has
    one of the statuses 200, 400, 401, 403, 404 and 500: no route ever
    answers 422, the handler registered for it is never reached. *)
Theorem no_route_answers_422 (op : Operation) (request : Request) (t : Table) :
  let code := status (fst (run op request t)) in
  (code = 200 \/ code = 400 \/ code = 401 \/ code = 403 \/ code = 404 \/
   code = 500) /\
  code <> 422 /\
  fst (run op request t) <> unprocessable.
Proof.
  cbv zeta. unfold serve.
  pose proof (route_settled op request t) as H.
  destruct (route op request t) as [[j | e] t']; cbn [fst].
  - simpl. split; [auto | split; [lia | discriminate]].
  - destruct H as [He _].
    destruct (escaped_response e He) as [Hs _].
    split; [tauto | split].
    + lia.
    + intros Heq. rewrite Heq in Hs. simpl in Hs. lia.
Qed.

(** X2. A request that is not answered 200 leaves the table as it was,
    on every route. *)
Theorem failure_leaves_table (op : Operation) (request : Request) (t : Table) :
  status (fst (run op request t)) <> 200 ->
  snd (run op request t) = t.
Proof.
  intros Hs. destruct (route_step op request t) as [[_ H] | [H _]];
    [exact H | now contradiction Hs].
Qed.

(** X3. A response is a 200 exactly when its body is a JSON document
    whose [success] field is true. *)
Theorem ok_iff_success_true (op : Operation) (request : Request) (t : Table) :
  let r := fst (run op request t) in
  status r = 200 <->
  exists j, body r = JsonBody j /\ obj_get "success" j = Some (JBool true).
Proof.
  cbv zeta. unfold serve.
  pose proof (route_settled op request t) as H.
  destruct (route op request t) as [[j | e] t']; cbn [fst].
  - simpl. split; [intros _; now exists j | reflexivity].
  - destruct H as [He _].
    destruct (escaped_response e He) as [Hs Hb].
    split; [intros H200; lia | intros Hj; now contradiction Hb].
Qed.

(** *** Editing a drink *)

(** X4. [PATCH /drinks/<id>] on the id of a row, with a body that has
    both keys and a commit that goes through: the row takes, field by
    field, the value of the key, or keeps its own when that value is
    [null] (the recipe as serialized text); the answer is a 200 with the
    long form of the row as stored, and the identifier is the same. *)
Theorem edit_changes_supplied_fields (request : Request) (drink : Drink)
    (jwt : Claims) (data new_title new_recipe : json) (t : Table) :
  checker "patch:drinks" request = Ok jwt ->
  NoDup (map id t) ->
  In drink t ->
  payload request = Parsed data ->
  getitem data "title" = Ok new_title ->
  getitem data "recipe" = Ok new_recipe ->
  let edited :=
    mkDrink (id drink)
      (if is_None new_title then title drink else new_title)
      (if is_None new_recipe then recipe drink else json_dumps new_recipe) in
  (forall e, fst (update commit_raises edited t) <> Raise e) ->
  run (PATCH_drinks (id drink)) request t =
    (mkResponse 200
       (JsonBody (JObj [("success", JBool true);
                        ("drinks", long json_loads edited)])),
     map (fun r => if id r =? id drink then edited else r) t).
Proof.
  intros Hauth Hnd Hin Hp Ht Hr edited Hgo.
  unfold serve, view. rewrite (guarded_pass _ _ _ _ _ _ _ Hauth).
  rewrite (edit_drink_commit request drink jwt data new_title new_recipe t
             (filter_by_id_present drink t Hnd Hin) Hp Ht Hr).
  fold edited. unfold update in Hgo.
  destruct (commit_raises t (OpUpdate edited));
    [exfalso; now apply (Hgo PersistenceError) | reflexivity].
Qed.

(** X5. [PATCH /drinks/<id>] with [{"title": null, "recipe": null}] on
    the id of a row, commit going through, is answered 200 with the long
    form of the stored drink and changes no row. *)
Theorem edit_with_nulls_changes_nothing (request : Request) (drink : Drink)
    (jwt : Claims) (data : json) (t : Table) :
  checker "patch:drinks" request = Ok jwt ->
  NoDup (map id t) ->
  In drink t ->
  payload request = Parsed data ->
  getitem data "title" = Ok JNull ->
  getitem data "recipe" = Ok JNull ->
  (forall e, fst (update commit_raises drink t) <> Raise e) ->
  run (PATCH_drinks (id drink)) request t =
    (mkResponse 200
       (JsonBody (JObj [("success", JBool true);
                        ("drinks", long json_loads drink)])),
     t).
Proof.
  intros Hauth Hnd Hin Hp Ht Hr Hgo.
  assert (Hq := filter_by_id_present drink t Hnd Hin).
  assert (Hsame : mkDrink (id drink) (title drink) (recipe drink) = drink)
    by now destruct drink.
  unfold serve, view. rewrite (guarded_pass _ _ _ _ _ _ _ Hauth).
  rewrite (edit_drink_commit request drink jwt data JNull JNull t Hq Hp Ht Hr).
  simpl is_None. cbv iota. rewrite Hsame.
  unfold update in Hgo.
  destruct (commit_raises t (OpUpdate drink));
    [exfalso; now apply (Hgo PersistenceError) |].
  rewrite (replace_by_itself drink t); [reflexivity |].
  intros r Hr' Hid. now apply (filter_by_id_single (id drink) drink t Hq).
Qed.

(** X6. [PATCH /drinks/<id>] on the id of a row whose commit raises is
    answered 404, and the table is as it was. *)
Theorem edit_commit_raises_404 (request : Request) (drink : Drink)
    (jwt : Claims) (data new_title new_recipe : json) (t : Table) (e : exn) :
  checker "patch:drinks" request = Ok jwt ->
  NoDup (map id t) ->
  In drink t ->
  payload request = Parsed data ->
  getitem data "title" = Ok new_title ->
  getitem data "recipe" = Ok new_recipe ->
  let edited :=
    mkDrink (id drink)
      (if is_None new_title then title drink else new_title)
      (if is_None new_recipe then recipe drink else json_dumps new_recipe) in
  fst (update commit_raises edited t) = Raise e ->
  run (PATCH_drinks (id drink)) request t = (not_found, t).
Proof.
  intros Hauth Hnd Hin Hp Ht Hr edited Hraise.
  unfold serve, view. rewrite (guarded_pass _ _ _ _ _ _ _ Hauth).
  rewrite (edit_drink_commit request drink jwt data new_title new_recipe t
             (filter_by_id_present drink t Hnd Hin) Hp Ht Hr).
  fold edited. unfold update in Hraise.
  destruct (commit_raises t (OpUpdate edited));
    [reflexivity | discriminate Hraise].
Qed.

(** X7. Whatever the request and its outcome, [PATCH /drinks/<id>] leaves
    the table with the same identifiers in the same order: it neither adds
    nor removes a row, and never changes an identifier. *)
Theorem edit_keeps_ids (i : Z) (request : Request) (t : Table) :
  map id (snd (run (PATCH_drinks i) request t)) = map id t.
Proof.
  destruct (route_step (PATCH_drinks i) request t) as [[_ ->] | [_ Hafter]];
    [reflexivity |].
  destruct Hafter as [drink [edited [_ [<- [_ ->]]]]]. apply replace_keeps_ids.
Qed.

(** *** Deleting a drink *)

(** X8. [DELETE /drinks/<id>] on the id of a row, commit going through,
    is answered 200 with [{"success": true, "id": <id>}]; afterwards that
    row is gone and every other row is still there. *)
Theorem delete_removes_the_drink (request : Request) (drink : Drink)
    (jwt : Claims) (t : Table) :
  checker "delete:drinks" request = Ok jwt ->
  NoDup (map id t) ->
  In drink t ->
  (forall e, fst (delete commit_raises drink t) <> Raise e) ->
  fst (run (DELETE_drinks (id drink)) request t) =
    mkResponse 200
      (JsonBody (JObj [("success", JBool true); ("id", JNum (id drink))])) /\
  forall r,
    In r (snd (run (DELETE_drinks (id drink)) request t)) <->
    In r t /\ r <> drink.
Proof.
  intros Hauth Hnd Hin Hgo.
  assert (Hq := filter_by_id_present drink t Hnd Hin).
  unfold serve, view. rewrite (guarded_pass _ _ _ _ _ _ _ Hauth).
  rewrite (delete_drink_commit drink jwt t Hq).
  unfold delete in Hgo.
  destruct (commit_raises t (OpDelete drink));
    [exfalso; now apply (Hgo PersistenceError) |].
  cbn [fst snd dispatch]. split; [reflexivity |].
  intros r. rewrite filter_In. split.
  - intros [Hr Hne]. split; [exact Hr |].
    intros ->. rewrite Z.eqb_refl in Hne. discriminate Hne.
  - intros [Hr Hne]. split; [exact Hr |].
    destruct (Z.eqb_spec (id r) (id drink)) as [E | _]; [| reflexivity].
    exfalso. apply Hne.
    now apply (filter_by_id_single (id drink) drink t Hq).
Qed.

(** X9. [DELETE /drinks/<id>] on the id of a row whose commit raises is
    answered 404, and the table is as it was. *)
Theorem delete_commit_raises_404 (request : Request) (drink : Drink)
    (jwt : Claims) (t : Table) (e : exn) :
  checker "delete:drinks" request = Ok jwt ->
  NoDup (map id t) ->
  In drink t ->
  fst (delete commit_raises drink t) = Raise e ->
  run (DELETE_drinks (id drink)) request t = (not_found, t).
Proof.
  intros Hauth Hnd Hin Hraise.
  unfold serve, view. rewrite (guarded_pass _ _ _ _ _ _ _ Hauth).
  rewrite (delete_drink_commit drink jwt t (filter_by_id_present drink t Hnd Hin)).
  unfold delete in Hraise.
  destruct (commit_raises t (OpDelete drink));
    [reflexivity | discriminate Hraise].
Qed.

(** X10. Whatever the request, [DELETE /drinks/<id>] touches no row of
    another id: the table afterwards is the table before, or the table
    before less the rows of that id, and the latter exactly when the
    answer is 200. *)
Theorem delete_touches_only_its_id (i : Z) (request : Request) (t : Table) :
  (status (fst (run (DELETE_drinks i) request t)) = 200 ->
   snd (run (DELETE_drinks i) request t) =
     filter (fun r => negb (id r =? i)) t) /\
  (status (fst (run (DELETE_drinks i) request t)) <> 200 ->
   snd (run (DELETE_drinks i) request t) = t) /\
  forall r,
    id r <> i ->
    (In r (snd (run (DELETE_drinks i) request t)) <-> In r t).
Proof.
  assert (H200 : status (fst (run (DELETE_drinks i) request t)) = 200 ->
                 snd (run (DELETE_drinks i) request t) =
                 filter (fun r => negb (id r =? i)) t).
  { intros Hs.
    destruct (route_step (DELETE_drinks i) request t) as [[Hno _] | [_ [_ H]]];
      [now contradiction Hno | exact H]. }
  assert (Hnot : status (fst (run (DELETE_drinks i) request t)) <> 200 ->
                 snd (run (DELETE_drinks i) request t) = t).
  { intros Hs.
    destruct (route_step (DELETE_drinks i) request t) as [[_ H] | [H _]];
      [exact H | now contradiction Hs]. }
  split; [exact H200 | split; [exact Hnot |]].
  intros r Hne.
  destruct (Z.eq_dec (status (fst (run (DELETE_drinks i) request t))) 200)
    as [Hs | Hs].
  - rewrite (H200 Hs), filter_In. split; [tauto |].
    intros Hr. split; [exact Hr |].
    destruct (Z.eqb_spec (id r) i); [contradiction | reflexivity].
  - now rewrite (Hnot Hs).
Qed.


(** *** Creating a drink, and listing afterwards *)

(** X13. Whatever the request, [POST /drinks] changes or removes no row:
    the table afterwards is the table before, or the table before with one
    row appended, which has the identifier the store generated and a
    recipe column written by [json.dumps]; and the latter exactly when the
    answer is 200. *)
Theorem create_appends_at_most_one_row (request : Request) (t : Table) :
  (status (fst (run POST_drinks request t)) = 200 ->
   exists new_title new_recipe,
     snd (run POST_drinks request t) =
       (t ++ [mkDrink (next_id t) new_title (json_dumps new_recipe)])%list) /\
  (status (fst (run POST_drinks request t)) <> 200 ->
   snd (run POST_drinks request t) = t).
Proof.
  split; intros Hs;
    destruct (route_step POST_drinks request t) as [[Hno Hsame] | [Hyes Hafter]].
  - now contradiction Hno.
  - exact Hafter.
  - exact Hsame.
  - now contradiction Hs.
Qed.

(** X14. Once a [POST /drinks] has been answered 200, [GET /drinks] is
    answered 200, never 404, whatever the table was: it lists the rows
    there were, in order, then the short form of the drink whose long
    form the create returned. *)
Theorem create_then_list (request listing : Request) (t : Table) :
  status (fst (run POST_drinks request t)) = 200 ->
  exists d,
    fst (run POST_drinks request t) =
      mkResponse 200
        (JsonBody (JObj [("success", JBool true); ("drinks", long json_loads d)])) /\
    run GET_drinks listing (snd (run POST_drinks request t)) =
      (mkResponse 200
         (JsonBody
            (JObj [("success", JBool true);
                   ("drinks",
                    JArr (map (short json_loads) t ++ [short json_loads d]))])),
       (t ++ [d])%list).
Proof.
  intros Hs. destruct (status_200_returned _ _ _ Hs) as [j [Hroute Hresp]].
  unfold view in Hroute.
  destruct (guarded_ok_inv _ _ _ _ _ _ Hroute) as [jwt [_ Hview]].
  pose proof (create_drink_table request jwt t) as Ht. rewrite Hview in Ht.
  destruct Ht as [new_title [new_recipe [Hj Ht]]]. cbv zeta in Hj, Ht.
  exists (mkDrink (next_id t) new_title (json_dumps new_recipe)).
  split; [now rewrite Hresp, Hj |].
  rewrite Ht. unfold serve, view.
  rewrite (get_drinks_rows json_loads);
    [| intros Hnil; now apply app_eq_nil in Hnil as [_ Hnil]].
  now rewrite map_app.
Qed.

(** *** Bodies that are not a dict *)

(** X15. A body that parses to anything but a JSON object (a list, a
    string, a number, [null]) makes the first subscript of [create_drink],
    and of [edit_drink] on the id of a row, raise [TypeError] outside the
    [try]: the answer is a 500 and the table is as it was. *)
Theorem body_not_a_dict_500 (request : Request) (data : json) (t : Table) :
  payload request = Parsed data ->
  (forall fields, data <> JObj fields) ->
  (forall jwt,
      checker "post:drinks" request = Ok jwt ->
      create_drink json_dumps json_loads commit_raises next_id request jwt t =
        (Raise TypeError, t) /\
      run POST_drinks request t = (mkResponse 500 DefaultPage, t)) /\
  (forall drink jwt,
      NoDup (map id t) ->
      In drink t ->
      checker "patch:drinks" request = Ok jwt ->
      edit_drink json_dumps json_loads commit_raises request (id drink) jwt t =
        (Raise TypeError, t) /\
      run (PATCH_drinks (id drink)) request t = (mkResponse 500 DefaultPage, t)).
Proof.
  intros Hp Hnot.
  assert (Hget : forall k, getitem data k = Raise TypeError).
  { intros k. destruct data; try reflexivity. now contradiction (Hnot fields). }
  split.
  - intros jwt Hauth.
    assert (Hview : create_drink json_dumps json_loads commit_raises next_id
                      request jwt t = (Raise TypeError, t)).
    { unfold create_drink, bind, get_json, lift. rewrite Hp. unfold ret.
      now rewrite Hget. }
    split; [exact Hview |].
    unfold serve, view. rewrite (guarded_pass _ _ _ _ _ _ _ Hauth).
    now rewrite Hview.
  - intros drink jwt Hnd Hin Hauth.
    assert (Hview : edit_drink json_dumps json_loads commit_raises request
                      (id drink) jwt t = (Raise TypeError, t)).
    { unfold edit_drink, bind, query_one_or_none.
      rewrite (filter_by_id_present drink t Hnd Hin). simpl.
      unfold get_json, lift. rewrite Hp. unfold ret. now rewrite Hget. }
    split; [exact Hview |].
    unfold serve, view. rewrite (guarded_pass _ _ _ _ _ _ _ Hauth).
    now rewrite Hview.
Qed.

(** X16. A body that is not JSON makes [request.get_json()] raise in
    [create_drink], and in [edit_drink] on the id of a row: the answer is
    the 400 of [bad_request], the uniform error body, and the table is as
    it was. *)
Theorem unparsable_body_400 (request : Request) (t : Table) :
  payload request = Unparsable ->
  (forall jwt,
      checker "post:drinks" request = Ok jwt ->
      run POST_drinks request t = (bad_request, t)) /\
  (forall drink jwt,
      NoDup (map id t) ->
      In drink t ->
      checker "patch:drinks" request = Ok jwt ->
      run (PATCH_drinks (id drink)) request t = (bad_request, t)) /\
  status bad_request = 400 /\
  is_error_envelope bad_request.
Proof.
  intros Hp. split; [| split; [| apply abort_handlers_envelope]].
  - intros jwt Hauth. unfold serve, view.
    rewrite (guarded_pass _ _ _ _ _ _ _ Hauth).
    unfold create_drink, bind, get_json. now rewrite Hp.
  - intros drink jwt Hnd Hin Hauth. unfold serve, view.
    rewrite (guarded_pass _ _ _ _ _ _ _ Hauth).
    unfold edit_drink, bind, query_one_or_none.
    rewrite (filter_by_id_present drink t Hnd Hin). simpl.
    unfold get_json. now rewrite Hp.
Qed.

(** *** Listings *)

(** X17. For a request the checker lets through, [GET /drinks-detail] is
    answered 404 exactly on the empty table and 200 exactly on a table
    with rows. *)
Theorem detail_404_iff_empty (request : Request) (jwt : Claims) (t : Table) :
  checker "get:drinks-detail" request = Ok jwt ->
  (status (fst (run GET_drinks_detail request t)) = 404 <-> t = []) /\
  (status (fst (run GET_drinks_detail request t)) = 200 <-> t <> []).
Proof.
  intros Hauth. unfold serve, view. rewrite (guarded_pass _ _ _ _ _ _ _ Hauth).
  destruct t as [| d t]; simpl; split; split; intros H;
    try reflexivity; try discriminate; try lia; now contradiction H.
Qed.

(** X18. The two listings never write: whatever the request and the
    answer, the table afterwards is the table before. *)
Theorem listings_never_write (request : Request) (t : Table) :
  snd (run GET_drinks request t) = t /\
  snd (run GET_drinks_detail request t) = t.
Proof.
  split.
  - destruct t; reflexivity.
  - unfold serve, view.
    destruct (checker "get:drinks-detail" request) as [jwt | e] eqn:Hc.
    + rewrite (guarded_pass _ _ _ _ _ _ _ Hc). destruct t; reflexivity.
    + now rewrite (guarded_stop _ _ _ _ _ _ _ Hc).
Qed.

(** *** Invariants of the table *)

(** X19. Identifiers stay unique: on a table where no two rows share an
    identifier, and with a store that generates an identifier no row has,
    every operation, whatever the request, leaves a table where no two
    rows share an identifier. *)
Theorem ids_stay_unique (op : Operation) (request : Request) (t : Table) :
  ~ In (next_id t) (map id t) ->
  NoDup (map id t) ->
  NoDup (map id (snd (run op request t))).
Proof.
  intros Hfresh Hnd.
  destruct (route_step op request t) as [[_ ->] | [_ Hafter]]; [exact Hnd |].
  now apply (table_after_unique op t).
Qed.

(** X20. The recipe column only ever holds text written by [json.dumps]:
    if every row's recipe is the serialization of some value, the same is
    true after any operation, whatever the request. *)
Theorem recipes_stay_serialized (op : Operation) (request : Request) (t : Table) :
  Forall (fun d => exists j, recipe d = json_dumps j) t ->
  Forall (fun d => exists j, recipe d = json_dumps j) (snd (run op request t)).
Proof.
  intros Hinv.
  destruct (route_step op request t) as [[_ ->] | [_ Hafter]]; [exact Hinv |].
  now apply (table_after_serialized op t).
Qed.

(** X21. Row count, on a table where no two rows share an identifier: a
    [POST /drinks] answered 200 adds exactly one row, a
    [DELETE /drinks/<id>] answered 200 removes exactly one, and every
    other request, on any route, leaves the number of rows as it was. *)
Theorem row_count_step (op : Operation) (request : Request) (t : Table) :
  NoDup (map id t) ->
  let answered_200 := status (fst (run op request t)) =? 200 in
  let rows := List.length (snd (run op request t)) in
  match op with
  | POST_drinks => rows = if answered_200 then S (List.length t) else List.length t
  | DELETE_drinks _ =>
      if answered_200 then S rows = List.length t else rows = List.length t
  | _ => rows = List.length t
  end.
Proof.
  intros Hnd. cbv zeta.
  destruct (route_step op request t) as [[Hno Hsame] | [Hyes Hafter]].
  - rewrite Hsame. apply Z.eqb_neq in Hno. rewrite Hno. now destruct op.
  - rewrite Hyes. simpl Z.eqb.
    pose proof (table_after_rows op t _ Hnd Hafter) as Hrows.
    now destruct op.
Qed.

(** X22. From the empty table the module starts with, and with a store
    that generates an identifier no row has, any sequence of requests
    leaves a table where no two rows share an identifier and every recipe
    column is text written by [json.dumps]. *)
Theorem session_keeps_table_sound (requests : list (Operation * Request)) :
  (forall t, ~ In (next_id t) (map id t)) ->
  let t := snd (serve_all run requests db_drop_and_create_all) in
  NoDup (map id t) /\
  Forall (fun d => exists j, recipe d = json_dumps j) t.
Proof.
  intros Hfresh. cbv zeta.
  assert (Hgen : forall t0,
             NoDup (map id t0) ->
             Forall (fun d => exists j, recipe d = json_dumps j) t0 ->
             NoDup (map id (snd (serve_all run requests t0))) /\
             Forall (fun d => exists j, recipe d = json_dumps j)
                    (snd (serve_all run requests t0))).
  { induction requests as [| [op request] rest IH]; intros t0 Hnd Hser;
      [now split |].
    simpl.
    assert (Hstep : NoDup (map id (snd (run op request t0))) /\
                    Forall (fun d => exists j, recipe d = json_dumps j)
                           (snd (run op request t0))).
    { destruct (route_step op request t0) as [[_ ->] | [_ Hafter]];
        [now split |].
      split; [now apply (table_after_unique op t0)
             | now apply (table_after_serialized op t0)]. }
    destruct (run op request t0) as [r t1]. cbn [snd] in Hstep.
    destruct Hstep as [Hnd' Hser'].
    specialize (IH t1 Hnd' Hser').
    now destruct (serve_all run rest t1) as [answers t2]. }
  apply Hgen; constructor.
Qed.

End Views.

(* ===================================================================== *)
(** ** The further properties on concrete requests *)
(* ===================================================================== *)

Lemma serial_id_above (t : Table) (d : Drink) :
  In d t -> id d < serial_id t.
Proof.
  unfold serial_id. induction t as [| d0 t IH]; intros Hin; [destruct Hin |].
  cbn [fold_right]. destruct Hin as [-> | Hin]; [lia |].
  specialize (IH Hin). lia.
Qed.

Lemma serial_id_fresh (t : Table) : ~ In (serial_id t) (map id t).
Proof.
  intros Hin. apply in_map_iff in Hin. destruct Hin as [d [Hid Hd]].
  pose proof (serial_id_above t d Hd). lia.
Qed.

Lemma menu_serialized :
  Forall (fun d => exists j, recipe d = PyJson.dumps j) [water; latte].
Proof. repeat constructor; eexists; reflexivity. Qed.

Lemma failure_leaves_table_witness :
  status (fst (shop store_up (DELETE_drinks 7) (manager JNull) [water; latte])) <> 200 /\
  snd (shop store_up (DELETE_drinks 7) (manager JNull) [water; latte]) = [water; latte].
Proof.
  assert (Hs : status (fst (shop store_up (DELETE_drinks 7) (manager JNull)
                              [water; latte])) <> 200)
    by (vm_compute; discriminate).
  split; [exact Hs |].
  exact (failure_leaves_table PyJson.dumps PyJson.loads store_up serial_id decode
           describe (DELETE_drinks 7) (manager JNull) [water; latte] Hs).
Defined.

Lemma edit_changes_supplied_fields_witness :
  (forall e,
      fst (update store_up (mkDrink 2 (JStr "Long black") (PyJson.dumps water_recipe))
             [water; latte]) <> Raise e) /\
  snd (shop store_up (PATCH_drinks 2) (manager long_black) [water; latte]) =
    [water; mkDrink 2 (JStr "Long black") (PyJson.dumps water_recipe)].
Proof.
  assert (Hgo : forall e,
             fst (update store_up
                    (mkDrink 2 (JStr "Long black") (PyJson.dumps water_recipe))
                    [water; latte]) <> Raise e)
    by (intros e; simpl; discriminate).
  split; [exact Hgo |].
  exact (f_equal snd
           (edit_changes_supplied_fields PyJson.dumps PyJson.loads store_up
              serial_id decode describe (manager long_black) latte manager_claims
              long_black (JStr "Long black") water_recipe [water; latte]
              eq_refl menu_ids_distinct (or_intror (or_introl eq_refl))
              eq_refl eq_refl eq_refl Hgo)).
Defined.

Lemma edit_with_nulls_changes_nothing_witness :
  getitem nulls "title" = Ok JNull /\
  getitem nulls "recipe" = Ok JNull /\
  shop store_up (PATCH_drinks 1) (manager nulls) [water; latte] =
    (mkResponse 200
       (JsonBody (JObj [("success", JBool true);
                        ("drinks", long PyJson.loads water)])),
     [water; latte]).
Proof.
  split; [reflexivity | split; [reflexivity |]].
  apply (edit_with_nulls_changes_nothing PyJson.dumps PyJson.loads store_up
           serial_id decode describe (manager nulls) water manager_claims nulls
           [water; latte] eq_refl menu_ids_distinct (or_introl eq_refl)
           eq_refl eq_refl eq_refl).
  intros e. simpl. discriminate.
Defined.

Lemma edit_commit_raises_404_witness :
  fst (update store_down (mkDrink 2 (JStr "Long black") (PyJson.dumps water_recipe))
         [water; latte]) = Raise PersistenceError /\
  shop store_down (PATCH_drinks 2) (manager long_black) [water; latte] =
    (not_found, [water; latte]).
Proof.
  split; [reflexivity |].
  exact (edit_commit_raises_404 PyJson.dumps PyJson.loads store_down serial_id
           decode describe (manager long_black) latte manager_claims long_black
           (JStr "Long black") water_recipe [water; latte] PersistenceError
           eq_refl menu_ids_distinct (or_intror (or_introl eq_refl))
           eq_refl eq_refl eq_refl eq_refl).
Defined.

Lemma delete_removes_the_drink_witness :
  In latte [water; latte] /\
  fst (shop store_up (DELETE_drinks 2) (manager JNull) [water; latte]) =
    mkResponse 200 (JsonBody (JObj [("success", JBool true); ("id", JNum 2)])) /\
  forall r,
    In r (snd (shop store_up (DELETE_drinks 2) (manager JNull) [water; latte])) <->
    In r [water; latte] /\ r <> latte.
Proof.
  split; [right; now left |].
  apply (delete_removes_the_drink PyJson.dumps PyJson.loads store_up serial_id
           decode describe (manager JNull) latte manager_claims [water; latte]
           eq_refl menu_ids_distinct (or_intror (or_introl eq_refl))).
  intros e. simpl. discriminate.
Defined.

Lemma delete_commit_raises_404_witness :
  fst (delete store_down latte [water; latte]) = Raise PersistenceError /\
  shop store_down (DELETE_drinks 2) (manager JNull) [water; latte] =
    (not_found, [water; latte]).
Proof.
  split; [reflexivity |].
  exact (delete_commit_raises_404 PyJson.dumps PyJson.loads store_down serial_id
           decode describe (manager JNull) latte manager_claims [water; latte]
           PersistenceError eq_refl menu_ids_distinct
           (or_intror (or_introl eq_refl)) eq_refl).
Defined.

Lemma delete_touches_only_its_id_witness :
  status (fst (shop store_up (DELETE_drinks 2) (manager JNull) [water; latte])) = 200 /\
  snd (shop store_up (DELETE_drinks 2) (manager JNull) [water; latte]) = [water] /\
  status (fst (shop store_up (DELETE_drinks 2) anonymous [water; latte])) <> 200 /\
  snd (shop store_up (DELETE_drinks 2) anonymous [water; latte]) = [water; latte].
Proof.
  assert (Hno : status (fst (shop store_up (DELETE_drinks 2) anonymous
                               [water; latte])) <> 200)
    by (vm_compute; discriminate).
  split; [reflexivity | split; [| split; [exact Hno |]]].
  - exact (proj1 (delete_touches_only_its_id PyJson.dumps PyJson.loads store_up
                    serial_id decode describe 2 (manager JNull) [water; latte])
             eq_refl).
  - exact (proj1 (proj2 (delete_touches_only_its_id PyJson.dumps PyJson.loads
                           store_up serial_id decode describe 2 anonymous
                           [water; latte]))
             Hno).
Defined.

Lemma create_appends_at_most_one_row_witness :
  status (fst (shop store_up POST_drinks (manager tea_body) [water; latte])) = 200 /\
  (exists new_title new_recipe,
      snd (shop store_up POST_drinks (manager tea_body) [water; latte]) =
      [water; latte; mkDrink 3 new_title (PyJson.dumps new_recipe)]) /\
  status (fst (shop store_up POST_drinks (manager rename_body) [water; latte])) <> 200 /\
  snd (shop store_up POST_drinks (manager rename_body) [water; latte]) = [water; latte].
Proof.
  assert (Hno : status (fst (shop store_up POST_drinks (manager rename_body)
                               [water; latte])) <> 200)
    by (vm_compute; discriminate).
  split; [reflexivity | split; [| split; [exact Hno |]]].
  - exact (proj1 (create_appends_at_most_one_row PyJson.dumps PyJson.loads
                    store_up serial_id decode describe (manager tea_body)
                    [water; latte])
             eq_refl).
  - exact (proj2 (create_appends_at_most_one_row PyJson.dumps PyJson.loads
                    store_up serial_id decode describe (manager rename_body)
                    [water; latte])
             Hno).
Defined.

Lemma create_then_list_witness :
  status (fst (shop store_up POST_drinks (manager tea_body) [])) = 200 /\
  exists d,
    fst (shop store_up POST_drinks (manager tea_body) []) =
      mkResponse 200
        (JsonBody (JObj [("success", JBool true); ("drinks", long PyJson.loads d)])) /\
    shop store_up GET_drinks anonymous
      (snd (shop store_up POST_drinks (manager tea_body) [])) =
      (mkResponse 200
         (JsonBody (JObj [("success", JBool true);
                          ("drinks", JArr [short PyJson.loads d])])),
       [d]).
Proof.
  split; [reflexivity |].
  exact (create_then_list PyJson.dumps PyJson.loads store_up serial_id decode
           describe (manager tea_body) anonymous [] eq_refl).
Defined.

Lemma body_not_a_dict_500_witness :
  (forall fields, JArr [JStr "Tea"] <> JObj fields) /\
  shop store_up POST_drinks (manager (JArr [JStr "Tea"])) [water; latte] =
    (mkResponse 500 DefaultPage, [water; latte]) /\
  shop store_up (PATCH_drinks 1) (manager (JArr [JStr "Tea"])) [water; latte] =
    (mkResponse 500 DefaultPage, [water; latte]).
Proof.
  assert (Hnot : forall fields, JArr [JStr "Tea"] <> JObj fields)
    by (intros fields; discriminate).
  pose proof (body_not_a_dict_500 PyJson.dumps PyJson.loads store_up serial_id
                decode describe (manager (JArr [JStr "Tea"])) (JArr [JStr "Tea"])
                [water; latte] eq_refl Hnot) as [Hpost Hpatch].
  split; [exact Hnot | split].
  - exact (proj2 (Hpost manager_claims eq_refl)).
  - exact (proj2 (Hpatch water manager_claims menu_ids_distinct
                    (or_introl eq_refl) eq_refl)).
Defined.

Lemma unparsable_body_400_witness :
  payload unreadable = Unparsable /\
  shop store_up POST_drinks unreadable [water; latte] = (bad_request, [water; latte]) /\
  shop store_up (PATCH_drinks 1) unreadable [water; latte] =
    (bad_request, [water; latte]).
Proof.
  pose proof (unparsable_body_400 PyJson.dumps PyJson.loads store_up serial_id
                decode describe unreadable [water; latte] eq_refl)
    as [Hpost [Hpatch _]].
  split; [reflexivity | split].
  - exact (Hpost manager_claims eq_refl).
  - exact (Hpatch water manager_claims menu_ids_distinct (or_introl eq_refl)
             eq_refl).
Defined.

Lemma detail_404_iff_empty_witness :
  check_auth decode describe "get:drinks-detail" (barista JNull) = Ok barista_claims /\
  status (fst (shop store_up GET_drinks_detail (barista JNull) [])) = 404 /\
  status (fst (shop store_up GET_drinks_detail (barista JNull) [water])) = 200.
Proof.
  split; [reflexivity | split].
  - exact (proj2 (proj1 (detail_404_iff_empty PyJson.dumps PyJson.loads store_up
                           serial_id decode describe (barista JNull)
                           barista_claims [] eq_refl))
             eq_refl).
  - refine (proj2 (proj2 (detail_404_iff_empty PyJson.dumps PyJson.loads store_up
                            serial_id decode describe (barista JNull)
                            barista_claims [water] eq_refl))
              _).
    discriminate.
Defined.

Lemma ids_stay_unique_witness :
  ~ In (serial_id [water; latte]) (map id [water; latte]) /\
  NoDup (map id [water; latte]) /\
  NoDup (map id (snd (shop store_up POST_drinks (manager tea_body) [water; latte]))).
Proof.
  split; [apply serial_id_fresh | split; [exact menu_ids_distinct |]].
  exact (ids_stay_unique PyJson.dumps PyJson.loads store_up serial_id decode
           describe POST_drinks (manager tea_body) [water; latte]
           (serial_id_fresh [water; latte]) menu_ids_distinct).
Defined.

Lemma recipes_stay_serialized_witness :
  Forall (fun d => exists j, recipe d = PyJson.dumps j) [water; latte] /\
  Forall (fun d => exists j, recipe d = PyJson.dumps j)
    (snd (shop store_up (PATCH_drinks 2) (manager long_black) [water; latte])).
Proof.
  split; [exact menu_serialized |].
  exact (recipes_stay_serialized PyJson.dumps PyJson.loads store_up serial_id
           decode describe (PATCH_drinks 2) (manager long_black) [water; latte]
           menu_serialized).
Defined.


Lemma row_count_step_witness :
  NoDup (map id [water; latte]) /\
  List.length (snd (shop store_up POST_drinks (manager tea_body) [water; latte])) = 3%nat /\
  S (List.length (snd (shop store_up (DELETE_drinks 2) (manager JNull) [water; latte]))) =
    2%nat /\
  List.length (snd (shop store_down (DELETE_drinks 2) (manager JNull) [water; latte])) =
    2%nat.
Proof.
  split; [exact menu_ids_distinct | split; [| split]].
  - exact (row_count_step PyJson.dumps PyJson.loads store_up serial_id decode
             describe POST_drinks (manager tea_body) [water; latte]
             menu_ids_distinct).
  - exact (row_count_step PyJson.dumps PyJson.loads store_up serial_id decode
             describe (DELETE_drinks 2) (manager JNull) [water; latte]
             menu_ids_distinct).
  - exact (row_count_step PyJson.dumps PyJson.loads store_down serial_id decode
             describe (DELETE_drinks 2) (manager JNull) [water; latte]
             menu_ids_distinct).
Defined.

Lemma session_keeps_table_sound_witness :
  (forall t, ~ In (serial_id t) (map id t)) /\
  NoDup (map id (snd (serve_all (shop store_up) morning db_drop_and_create_all))) /\
  Forall (fun d => exists j, recipe d = PyJson.dumps j)
    (snd (serve_all (shop store_up) morning db_drop_and_create_all)).
Proof.
  split; [exact serial_id_fresh |].
  exact (session_keeps_table_sound PyJson.dumps PyJson.loads store_up serial_id
           decode describe morning serial_id_fresh).
Defined.
